(** * BeszelClient: a shallow embedding of [src/app/client.py]

    The client is a thin layer over an HTTP session.  Python values that
    travel through it (JSON bodies, query parameters, header values, the
    token field) are modelled by one type of dynamic values; the HTTP
    session is an abstract network that answers each request; every method
    is a computation in a state-and-exception monad whose state holds the
    client object, the network and the list of requests sent so far. *)

From stdpp Require Import gmap strings list fin_maps pretty.
From Stdlib Require Import ZArith.

Set Warnings "-register-all".

Local Open Scope string_scope.
Local Open Scope Z_scope.
Local Open Scope list_scope.

(** ** Python values *)

(** The values [response.json()] can produce, which are also the values the
    client stores in dicts: [None], booleans, integers, strings, lists and
    string-keyed dicts (in insertion order).  Floating point numbers are
    left out: no method of the client inspects a number. *)
Inductive pyvalue : Type :=
  | PyNone
  | PyBool (b : bool)
  | PyInt (n : Z)
  | PyStr (s : string)
  | PyList (l : list pyvalue)
  | PyDict (d : list (string * pyvalue)).

(** [bool(s)] for a string: true iff the string is not empty. *)
Definition str_truthy (s : string) : bool :=
  match s with
  | EmptyString => false
  | String _ _ => true
  end.

(** [bool(v)], the test behind [if v:] and [v or w]. *)
Definition truthy (v : pyvalue) : bool :=
  match v with
  | PyNone => false
  | PyBool b => b
  | PyInt n => negb (n =? 0)
  | PyStr s => str_truthy s
  | PyList l => match l with [] => false | _ :: _ => true end
  | PyDict d => match d with [] => false | _ :: _ => true end
  end.

(** Lookup in a dict given as its items. *)
Fixpoint dict_lookup (k : string) (d : list (string * pyvalue)) : option pyvalue :=
  match d with
  | [] => None
  | (k', v) :: d' => if String.eqb k k' then Some v else dict_lookup k d'
  end.

(** The double-quote character and the one-character string holding it. *)
Definition dquote_char : Ascii.ascii := Ascii.ascii_of_nat 34.
Definition dquote : string := String dquote_char EmptyString.

Definition slash_char : Ascii.ascii := Ascii.ascii_of_nat 47.

(** [s.rstrip("/")]: drop every trailing slash. *)
Fixpoint rstrip_slash (s : string) : string :=
  match s with
  | EmptyString => EmptyString
  | String c s' =>
      match rstrip_slash s' with
      | EmptyString => if Ascii.eqb c slash_char then EmptyString else String c EmptyString
      | r => String c r
      end
  end.

(** ** Requests, responses, exceptions *)

Inductive Method : Type := GET | POST | PATCH | DELETE.

(** What one call of [self._client.get/post/patch/delete] hands to the HTTP
    library: the method, the URL, and the [headers=], [params=] and [json=]
    keyword arguments ([None] when the call does not pass them). *)
Record Request : Type := mkRequest {
  req_method : Method;
  req_url : string;
  req_headers : gmap string pyvalue;
  req_params : option (gmap string pyvalue);
  req_json : option pyvalue
}.

(** A response: its status code and what [response.json()] evaluates to
    ([None] when the body does not decode). *)
Record Response : Type := mkResponse {
  status_code : Z;
  resp_json : option pyvalue
}.

Inductive exn : Type :=
  | HTTPStatusError (response : Response)
  | RequestError (msg : string)
  | JSONDecodeError
  | KeyError (key : string)
  | TypeError
  | AttributeError.

(** Modelled from the spec: [Response.raise_for_status] belongs to the HTTP
    library, not to this repository; the spec says that a status in the
    success range returns and any other status raises a typed HTTP error
    carrying the response.  The success range is 2xx. *)
Definition is_success (r : Response) : bool :=
  (200 <=? status_code r) && (status_code r <=? 299).

(** The client object: [self.base_url] and [self.token].  [self._client]
    is the network of the monad's state. *)
Record BeszelClient : Type := mkClient {
  base_url : string;
  token : pyvalue
}.

(** The string of [n] slashes. *)
Fixpoint slashes (n : nat) : string :=
  match n with
  | O => EmptyString
  | S n' => String slash_char (slashes n')
  end.

(** [BeszelClient.__init__]. *)
Definition BeszelClient_init (url : string) (tok : pyvalue) : BeszelClient :=
  {| base_url := rstrip_slash url; token := tok |}.

(** What a method can read and change: the client object, the network
    behind [self._client], and the log of the requests sent so far. *)
Record State (Net : Type) : Type := mkState {
  self : BeszelClient;
  net : Net;
  sent : list Request
}.

Arguments mkState {Net} _ _ _.
Arguments self {Net} _.
Arguments net {Net} _.
Arguments sent {Net} _.

(** Inputs on which the model is run: a network without state that gives
    one answer to every request, two answers, and a client that has sent
    nothing yet. *)
Definition const_net (r : Response) (_ : unit) (_ : Request) : (string + Response) * unit :=
  (inr r, tt).

Definition ok_response (body : pyvalue) : Response :=
  {| status_code := 200; resp_json := Some body |}.

Definition error_response (code : Z) : Response :=
  {| status_code := code; resp_json := Some (PyDict [("message", PyStr "failed")]) |}.

Definition fresh_state (url : string) (tok : pyvalue) : State unit :=
  {| self := BeszelClient_init url tok; net := tt; sent := [] |}.

(** ** The command line: [src/app/cli.py] *)

(** [a or b] for two values that are a string or [None]. *)
Definition str_or (a b : option string) : option string :=
  match a with
  | Some s => if str_truthy s then a else b
  | None => b
  end.

Definition opt_str_value (o : option string) : pyvalue :=
  match o with
  | Some s => PyStr s
  | None => PyNone
  end.

(** What [get_client] ends in: a client, or [SystemExit(code)] after one
    line on the console. *)
Inductive client_or_exit : Type :=
  | ClientReady (c : BeszelClient)
  | ClientExit (printed : string) (code : Z).

(** [get_client].  The environment variables [BESZEL_URL] and
    [BESZEL_TOKEN] ([None] when unset) and the values of [config.get_url()]
    and [config.get_token()] are its inputs; module [app.config] is not
    among the sources, so what it returns is taken as given. *)
Definition get_client (env_url env_token cfg_url cfg_token : option string)
  : client_or_exit :=
  let base_url := str_or env_url cfg_url in
  match base_url with
  | Some url =>
      if str_truthy url then
        let token := str_or env_token cfg_token in
        ClientReady (BeszelClient_init url (opt_str_value token))
      else
        ClientExit "[red]Error: No Beszel URL configured. Run 'beszel login' first.[/red]" 1
  | None =>
      ClientExit "[red]Error: No Beszel URL configured. Run 'beszel login' first.[/red]" 1
  end.

(** [f"{x:.1f}"] for the exact value [x = num / den] with [den > 0]: the
    value rounded to one decimal, ties to even, after its sign. *)
Definition format_1f (num den : Z) : string :=
  let q := 10 * Z.abs num in
  let m := q / den in
  let r := q mod den in
  let tenths :=
    if den <? 2 * r then m + 1
    else if (den =? 2 * r) && Z.odd m then m + 1
    else m in
  (if num <? 0 then "-" else EmptyString)
    +:+ pretty (Z.to_N (tenths / 10)) +:+ "." +:+ pretty (Z.to_N (tenths mod 10)).

(** The loop of [_format_bytes]; the running value is [num / den]. *)
Fixpoint format_bytes_loop (num den : Z) (units : list string) : string :=
  match units with
  | [] => format_1f num den +:+ " PB"
  | unit :: rest =>
      if Z.abs num <? 1024 * den then format_1f num den +:+ " " +:+ unit
      else format_bytes_loop num (1024 * den) rest
  end.

Definition byte_units : list string := ["B"; "KB"; "MB"; "GB"; "TB"].

(** [_format_bytes] on an integer argument.  For an integer below [2^53]
    in magnitude every float operation of the function is exact
    ([float(value)], [abs], the comparison with 1024 and the division by
    1024, a power of two), so the running value is the rational
    [value / 1024^k], and [.1f] prints that value rounded to one decimal.
    Arguments that are floats are outside this model. *)
Definition _format_bytes (value : Z) : string :=
  if value =? 0 then "0 B" else format_bytes_loop value 1 byte_units.

Module Client.
Section WithNetwork.

(** The network: from its current state and a request, either a transport
    failure or a response, and its next state. *)
Variable Net : Type.
Variable send : Net -> Request -> (string + Response) * Net.

(** ** The monad of methods: state that survives exceptions *)

Definition M (A : Type) : Type := State Net -> (exn + A) * State Net.

Definition ret {A} (a : A) : M A := fun st => (inr a, st).

Definition bind {A B} (m : M A) (k : A -> M B) : M B :=
  fun st =>
    match m st with
    | (inl e, st') => (inl e, st')
    | (inr a, st') => k a st'
    end.

Definition raise {A} (e : exn) : M A := fun st => (inl e, st).

Notation "x <- m ;; k" := (bind m (fun x => k))
  (at level 100, m at next level, right associativity).
Notation "m ;;; k" := (bind m (fun _ => k))
  (at level 100, right associativity).

Definition get_self : M BeszelClient := fun st => (inr (self st), st).

Definition set_token (v : pyvalue) : M unit :=
  fun st =>
    (inr tt, {| self := {| base_url := base_url (self st); token := v |};
                net := net st; sent := sent st |}).

(** One call into the HTTP session. *)
Definition http_request (r : Request) : M Response :=
  fun st =>
    let '(answer, n) := send (net st) r in
    let st' := {| self := self st; net := n; sent := sent st ++ [r] |} in
    match answer with
    | inl msg => (inl (RequestError msg), st')
    | inr resp => (inr resp, st')
    end.

Definition raise_for_status (r : Response) : M unit :=
  if is_success r then ret tt else raise (HTTPStatusError r).

(** [response.json()]. *)
Definition response_json (r : Response) : M pyvalue :=
  match resp_json r with
  | Some v => ret v
  | None => raise JSONDecodeError
  end.

(** [v[key]] for a string key. *)
Definition subscript (v : pyvalue) (key : string) : M pyvalue :=
  match v with
  | PyDict d =>
      match dict_lookup key d with
      | Some x => ret x
      | None => raise (KeyError key)
      end
  | _ => raise TypeError
  end.

(** [v.get(key, default)]. *)
Definition py_get (v : pyvalue) (key : string) (default : pyvalue) : M pyvalue :=
  match v with
  | PyDict d =>
      match dict_lookup key d with
      | Some x => ret x
      | None => ret default
      end
  | _ => raise AttributeError
  end.

(** [data or {}]. *)
Definition or_empty_dict (data : pyvalue) : pyvalue :=
  if truthy data then data else PyDict [].

(** ** Transport helpers *)

Definition json_headers : gmap string pyvalue :=
  {[ "Content-Type" := PyStr "application/json" ]}.

Definition _headers : M (gmap string pyvalue) :=
  c <- get_self ;;
  let headers := json_headers in
  ret (if truthy (token c) then <[ "Authorization" := token c ]> headers else headers).

Definition _get (path : string) (params : option (gmap string pyvalue)) : M pyvalue :=
  c <- get_self ;;
  h <- _headers ;;
  response <- http_request
    {| req_method := GET; req_url := base_url c +:+ path;
       req_headers := h; req_params := params; req_json := None |} ;;
  raise_for_status response ;;;
  response_json response.

Definition _post (path : string) (data : pyvalue) : M pyvalue :=
  c <- get_self ;;
  h <- _headers ;;
  response <- http_request
    {| req_method := POST; req_url := base_url c +:+ path;
       req_headers := h; req_params := None; req_json := Some (or_empty_dict data) |} ;;
  raise_for_status response ;;;
  response_json response.

Definition _patch (path : string) (data : pyvalue) : M pyvalue :=
  c <- get_self ;;
  h <- _headers ;;
  response <- http_request
    {| req_method := PATCH; req_url := base_url c +:+ path;
       req_headers := h; req_params := None; req_json := Some data |} ;;
  raise_for_status response ;;;
  response_json response.

Definition _delete (path : string) : M unit :=
  c <- get_self ;;
  h <- _headers ;;
  response <- http_request
    {| req_method := DELETE; req_url := base_url c +:+ path;
       req_headers := h; req_params := None; req_json := None |} ;;
  raise_for_status response.

(** ** Authentication *)

Definition login_request (c : BeszelClient) (email password : string) : Request :=
  {| req_method := POST;
     req_url := base_url c +:+ "/api/collections/users/auth-with-password";
     req_headers := json_headers;
     req_params := None;
     req_json := Some (PyDict [("identity", PyStr email); ("password", PyStr password)]) |}.

Definition login (email password : string) : M pyvalue :=
  c <- get_self ;;
  response <- http_request (login_request c email password) ;;
  raise_for_status response ;;;
  body <- response_json response ;;
  tok <- subscript body "token" ;;
  set_token tok ;;;
  c' <- get_self ;;
  ret (token c').

Definition auth_refresh : M pyvalue :=
  _post "/api/collections/users/auth-refresh" PyNone.

Definition get_current_user : M pyvalue :=
  result <- auth_refresh ;;
  py_get result "record" (PyDict []).

(** ** Generic collection helpers *)

Definition list_params (page per_page : Z) (sort filter_expr expand : string)
  : gmap string pyvalue :=
  let params : gmap string pyvalue :=
    <[ "perPage" := PyInt per_page ]> {[ "page" := PyInt page ]} in
  let params := if str_truthy sort then <[ "sort" := PyStr sort ]> params else params in
  let params :=
    if str_truthy filter_expr then <[ "filter" := PyStr filter_expr ]> params else params in
  let params := if str_truthy expand then <[ "expand" := PyStr expand ]> params else params in
  params.

Definition list_records (collection : string) (page per_page : Z)
    (sort filter_expr expand : string) : M pyvalue :=
  let params := list_params page per_page sort filter_expr expand in
  _get ("/api/collections/" +:+ collection +:+ "/records") (Some params).

Definition get_record (collection record_id expand : string) : M pyvalue :=
  let params : gmap string pyvalue := ∅ in
  let params := if str_truthy expand then <[ "expand" := PyStr expand ]> params else params in
  _get ("/api/collections/" +:+ collection +:+ "/records/" +:+ record_id) (Some params).

Definition create_record (collection : string) (data : pyvalue) : M pyvalue :=
  _post ("/api/collections/" +:+ collection +:+ "/records") data.

Definition update_record (collection record_id : string) (data : pyvalue) : M pyvalue :=
  _patch ("/api/collections/" +:+ collection +:+ "/records/" +:+ record_id) data.

Definition delete_record (collection record_id : string) : M unit :=
  _delete ("/api/collections/" +:+ collection +:+ "/records/" +:+ record_id).

(** ** Domain accessors.  Python's default arguments (page 1, an empty
    sort, ...) are written out at each call. *)

(** [f'system="{system_id}"'] *)
Definition system_filter (system_id : string) : string :=
  "system=" +:+ dquote +:+ system_id +:+ dquote.

(** [f'system="{system_id}" && type="{record_type}"'] *)
Definition system_type_filter (system_id record_type : string) : string :=
  "system=" +:+ dquote +:+ system_id +:+ dquote +:+ " && type="
    +:+ dquote +:+ record_type +:+ dquote.

Definition get_systems (filter_expr : string) : M pyvalue :=
  result <- list_records "systems" 1 200 EmptyString filter_expr EmptyString ;;
  py_get result "items" (PyList []).

Definition get_system (system_id : string) : M pyvalue :=
  get_record "systems" system_id EmptyString.

Definition update_system (system_id : string) (data : pyvalue) : M pyvalue :=
  update_record "systems" system_id data.

Definition delete_system (system_id : string) : M unit :=
  delete_record "systems" system_id.

Definition get_system_stats (system_id record_type : string) (per_page : Z) : M pyvalue :=
  result <- list_records "system_stats" 1 per_page "-created"
              (system_type_filter system_id record_type) EmptyString ;;
  py_get result "items" (PyList []).

Definition get_container_stats (system_id : string) (per_page : Z) : M pyvalue :=
  result <- list_records "container_stats" 1 per_page "-created"
              (system_filter system_id) EmptyString ;;
  py_get result "items" (PyList []).

Definition get_alerts (system_id : string) : M pyvalue :=
  let filter_expr :=
    if str_truthy system_id then system_filter system_id else EmptyString in
  result <- list_records "alerts" 1 200 EmptyString filter_expr "system" ;;
  py_get result "items" (PyList []).

Definition get_alert (alert_id : string) : M pyvalue :=
  get_record "alerts" alert_id "system".

Definition create_alert (data : pyvalue) : M pyvalue :=
  create_record "alerts" data.

Definition update_alert (alert_id : string) (data : pyvalue) : M pyvalue :=
  update_record "alerts" alert_id data.

Definition delete_alert (alert_id : string) : M unit :=
  delete_record "alerts" alert_id.

Definition get_alert_history (per_page : Z) : M pyvalue :=
  result <- list_records "alerts_history" 1 per_page "-created" EmptyString EmptyString ;;
  py_get result "items" (PyList []).

Definition get_containers (system_id : string) : M pyvalue :=
  let filter_expr :=
    if str_truthy system_id then system_filter system_id else EmptyString in
  result <- list_records "containers" 1 200 EmptyString filter_expr EmptyString ;;
  py_get result "items" (PyList []).

(** ** Every method that talks to the server, as one type.

    [close], [__enter__] and [__exit__] send nothing and are left out.
    A method that returns nothing yields [PyNone], as in Python. *)

Inductive operation : Type :=
  | Op_get (path : string) (params : option (gmap string pyvalue))
  | Op_post (path : string) (data : pyvalue)
  | Op_patch (path : string) (data : pyvalue)
  | Op_delete (path : string)
  | Op_login (email password : string)
  | Op_auth_refresh
  | Op_get_current_user
  | Op_list_records (collection : string) (page per_page : Z)
      (sort filter_expr expand : string)
  | Op_get_record (collection record_id expand : string)
  | Op_create_record (collection : string) (data : pyvalue)
  | Op_update_record (collection record_id : string) (data : pyvalue)
  | Op_delete_record (collection record_id : string)
  | Op_get_systems (filter_expr : string)
  | Op_get_system (system_id : string)
  | Op_update_system (system_id : string) (data : pyvalue)
  | Op_delete_system (system_id : string)
  | Op_get_system_stats (system_id record_type : string) (per_page : Z)
  | Op_get_container_stats (system_id : string) (per_page : Z)
  | Op_get_alerts (system_id : string)
  | Op_get_alert (alert_id : string)
  | Op_create_alert (data : pyvalue)
  | Op_update_alert (alert_id : string) (data : pyvalue)
  | Op_delete_alert (alert_id : string)
  | Op_get_alert_history (per_page : Z)
  | Op_get_containers (system_id : string).

Definition returning_none (m : M unit) : M pyvalue := m ;;; ret PyNone.

Definition call (o : operation) : M pyvalue :=
  match o with
  | Op_get path params => _get path params
  | Op_post path data => _post path data
  | Op_patch path data => _patch path data
  | Op_delete path => returning_none (_delete path)
  | Op_login email password => login email password
  | Op_auth_refresh => auth_refresh
  | Op_get_current_user => get_current_user
  | Op_list_records c p pp s f e => list_records c p pp s f e
  | Op_get_record c i e => get_record c i e
  | Op_create_record c d => create_record c d
  | Op_update_record c i d => update_record c i d
  | Op_delete_record c i => returning_none (delete_record c i)
  | Op_get_systems f => get_systems f
  | Op_get_system i => get_system i
  | Op_update_system i d => update_system i d
  | Op_delete_system i => returning_none (delete_system i)
  | Op_get_system_stats i t pp => get_system_stats i t pp
  | Op_get_container_stats i pp => get_container_stats i pp
  | Op_get_alerts i => get_alerts i
  | Op_get_alert i => get_alert i
  | Op_create_alert d => create_alert d
  | Op_update_alert i d => update_alert i d
  | Op_delete_alert i => returning_none (delete_alert i)
  | Op_get_alert_history pp => get_alert_history pp
  | Op_get_containers i => get_containers i
  end.

Definition is_login (o : operation) : bool :=
  match o with Op_login _ _ => true | _ => false end.

(** The methods that end in [self._delete(...)]. *)
Definition is_delete (o : operation) : bool :=
  match o with
  | Op_delete _ | Op_delete_record _ _ | Op_delete_system _ | Op_delete_alert _ => true
  | _ => false
  end.

(** The methods whose [return] is the value of [_get], [_post] or
    [_patch], directly or through another such method. *)
Definition returns_body (o : operation) : bool :=
  match o with
  | Op_get _ _ | Op_post _ _ | Op_patch _ _ | Op_auth_refresh
  | Op_list_records _ _ _ _ _ _ | Op_get_record _ _ _
  | Op_create_record _ _ | Op_update_record _ _ _
  | Op_get_system _ | Op_update_system _ _
  | Op_get_alert _ | Op_create_alert _ | Op_update_alert _ _ => true
  | _ => false
  end.

(** The methods that end in [result.get("items", [])]. *)
Definition returns_items (o : operation) : bool :=
  match o with
  | Op_get_systems _ | Op_get_system_stats _ _ _ | Op_get_container_stats _ _
  | Op_get_alerts _ | Op_get_alert_history _ | Op_get_containers _ => true
  | _ => false
  end.

(** The requests a computation adds to the log. *)
Definition sends {A} (m : M A) (st : State Net) (reqs : list Request) : Prop :=
  sent (m st).2 = sent st ++ reqs.

(** The [filter] query parameter of the one request a computation sends
    ([None]: the request has no such parameter). *)
Definition sends_filter {A} (m : M A) (st : State Net) (f : option pyvalue) : Prop :=
  exists req p,
    sends m st [req] /\ req_method req = GET /\
    req_params req = Some p /\ p !! "filter" = f.

(** The characters of a string, as their codes. *)
Definition codes (s : string) : list nat :=
  map Ascii.nat_of_ascii (String.list_ascii_of_string s).

(** ** Running the transport helpers *)

(** What a helper does once its request is built: send, check the status,
    then finish with [k]. *)
Definition exchange {A} (req : Request) (k : Response -> exn + A) : M A :=
  fun st =>
    let '(answer, n) := send (net st) req in
    let st' := {| self := self st; net := n; sent := sent st ++ [req] |} in
    match answer with
    | inl msg => (inl (RequestError msg), st')
    | inr r => if is_success r then (k r, st') else (inl (HTTPStatusError r), st')
    end.

Definition decoded (r : Response) : exn + pyvalue :=
  match resp_json r with
  | Some v => inr v
  | None => inl JSONDecodeError
  end.

Definition field_or (key : string) (default : pyvalue) (r : Response) : exn + pyvalue :=
  match resp_json r with
  | Some (PyDict d) =>
      match dict_lookup key d with
      | Some x => inr x
      | None => inr default
      end
  | Some _ => inl AttributeError
  | None => inl JSONDecodeError
  end.

(** The headers [_headers] computes for a client. *)
Definition headers_of (c : BeszelClient) : gmap string pyvalue :=
  if truthy (token c) then <[ "Authorization" := token c ]> json_headers else json_headers.

(** ** The HTTP method of each operation *)

Definition method_of (o : operation) : Method :=
  match o with
  | Op_get _ _ | Op_list_records _ _ _ _ _ _ | Op_get_record _ _ _
  | Op_get_systems _ | Op_get_system _ | Op_get_system_stats _ _ _
  | Op_get_container_stats _ _ | Op_get_alerts _ | Op_get_alert _
  | Op_get_alert_history _ | Op_get_containers _ => GET
  | Op_post _ _ | Op_login _ _ | Op_auth_refresh | Op_get_current_user
  | Op_create_record _ _ | Op_create_alert _ => POST
  | Op_patch _ _ | Op_update_record _ _ _ | Op_update_system _ _
  | Op_update_alert _ _ => PATCH
  | Op_delete _ | Op_delete_record _ _ | Op_delete_system _ | Op_delete_alert _ => DELETE
  end.

(** The four transport helpers, which take the path from their caller. *)
Definition is_helper (o : operation) : bool :=
  match o with
  | Op_get _ _ | Op_post _ _ | Op_patch _ _ | Op_delete _ => true
  | _ => false
  end.

Definition is_dict (v : pyvalue) : bool :=
  match v with PyDict _ => true | _ => false end.

(** ** Commands of [src/app/cli.py] that drive the client *)

(** [str(v)], Python's builtin, is taken as given. *)
Variable py_str : pyvalue -> string.

(** How a command ends: [SystemExit] from [get_client], or the outcome of
    its body on the client (the lines it printed, or the exception that
    left the [with] block) and the final state. *)
Inductive command_result (A : Type) : Type :=
  | Exited (printed : string) (code : Z)
  | Ran (outcome : exn + A) (final : State Net).

Arguments Exited {A} _ _.
Arguments Ran {A} _ _.

(** [with get_client() as client: body], on a network [n].  Closing the
    session on exit is not modelled. *)
Definition with_client {A} (env_url env_token cfg_url cfg_token : option string)
    (n : Net) (body : M A) : command_result A :=
  match get_client env_url env_token cfg_url cfg_token with
  | ClientExit printed code => Exited printed code
  | ClientReady c =>
      let '(outcome, final) := body {| self := c; net := n; sent := [] |} in
      Ran outcome final
  end.

(** The [data] dict of [system_update]: each option is kept when truthy. *)
Definition system_update_data (name host : option string) (port : option Z)
  : list (string * pyvalue) :=
  let data := [] in
  let data :=
    match name with
    | Some s => if str_truthy s then data ++ [("name", PyStr s)] else data
    | None => data
    end in
  let data :=
    match host with
    | Some s => if str_truthy s then data ++ [("host", PyStr s)] else data
    | None => data
    end in
  let data :=
    match port with
    | Some p => if truthy (PyInt p) then data ++ [("port", PyInt p)] else data
    | None => data
    end in
  data.

(** The body of the [system-update] command; its value is what it prints. *)
Definition system_update_body (system_id : string) (name host : option string)
    (port : option Z) : M (list string) :=
  let data := system_update_data name host port in
  if truthy (PyDict data) then
    sys <- update_system system_id (PyDict data) ;;
    shown <- py_get sys "name" PyNone ;;
    ret ["[green]Updated system:[/green] " +:+ py_str shown]
  else
    ret ["[yellow]No updates provided[/yellow]"].

Definition system_update (env_url env_token cfg_url cfg_token : option string) (n : Net)
    (system_id : string) (name host : option string) (port : option Z)
  : command_result (list string) :=
  with_client env_url env_token cfg_url cfg_token n
    (system_update_body system_id name host port).

(** The body of the [system-delete] command, once confirmed. *)
Definition system_delete_body (system_id : string) : M (list string) :=
  delete_system system_id ;;;
  ret ["[green]System deleted[/green]"].

(** What the [system-update] command prints for the updated record. *)
Definition updated_line (sys : pyvalue) : exn + list string :=
  match sys with
  | PyDict d =>
      inr ["[green]Updated system:[/green] "
             +:+ py_str (default PyNone (dict_lookup "name" d))]
  | _ => inl AttributeError
  end.

(** The last step of each method but [login], applied to a response with
    a success status: what it makes of the body. *)
Definition finish (o : operation) : Response -> exn + pyvalue :=
  if is_delete o then fun _ => inr PyNone
  else if returns_items o then field_or "items" (PyList [])
  else match o with
       | Op_get_current_user => field_or "record" (PyDict [])
       | _ => decoded
       end.

(** A computation sends one request, a GET for the records of
    [collection], with the given [page], [perPage], [sort] and [expand]
    query parameters ([None]: the parameter is absent). *)
Definition sends_list_query {A} (m : M A) (st : State Net) (collection : string)
    (page per_page : Z) (sort expand : option string) : Prop :=
  exists req p,
    sends m st [req] /\
    req_method req = GET /\
    req_url req = base_url (self st) +:+ "/api/collections/" +:+ collection +:+ "/records" /\
    req_params req = Some p /\
    p !! "page" = Some (PyInt page) /\
    p !! "perPage" = Some (PyInt per_page) /\
    p !! "sort" = PyStr <$> sort /\
    p !! "expand" = PyStr <$> expand.

Lemma _headers_run st : _headers st = (inr (headers_of (self st)), st).
Proof. reflexivity. Qed.

Lemma _get_run path params st :
  _get path params st =
  exchange {| req_method := GET; req_url := base_url (self st) +:+ path;
              req_headers := headers_of (self st); req_params := params;
              req_json := None |} decoded st.
Proof.
  unfold _get, exchange, bind, http_request, get_self, _headers, headers_of; simpl.
  destruct (send _ _) as [[msg | r] n]; simpl; [reflexivity |].
  unfold raise_for_status, response_json, decoded.
  destruct (is_success r); simpl; [| reflexivity].
  destruct (resp_json r); reflexivity.
Qed.

Lemma _post_run path data st :
  _post path data st =
  exchange {| req_method := POST; req_url := base_url (self st) +:+ path;
              req_headers := headers_of (self st); req_params := None;
              req_json := Some (or_empty_dict data) |} decoded st.
Proof.
  unfold _post, exchange, bind, http_request, get_self, _headers, headers_of; simpl.
  destruct (send _ _) as [[msg | r] n]; simpl; [reflexivity |].
  unfold raise_for_status, response_json, decoded.
  destruct (is_success r); simpl; [| reflexivity].
  destruct (resp_json r); reflexivity.
Qed.

Lemma _patch_run path data st :
  _patch path data st =
  exchange {| req_method := PATCH; req_url := base_url (self st) +:+ path;
              req_headers := headers_of (self st); req_params := None;
              req_json := Some data |} decoded st.
Proof.
  unfold _patch, exchange, bind, http_request, get_self, _headers, headers_of; simpl.
  destruct (send _ _) as [[msg | r] n]; simpl; [reflexivity |].
  unfold raise_for_status, response_json, decoded.
  destruct (is_success r); simpl; [| reflexivity].
  destruct (resp_json r); reflexivity.
Qed.

Lemma _delete_run path st :
  _delete path st =
  exchange {| req_method := DELETE; req_url := base_url (self st) +:+ path;
              req_headers := headers_of (self st); req_params := None;
              req_json := None |} (fun _ => inr tt) st.
Proof.
  unfold _delete, exchange, bind, http_request, get_self, _headers, headers_of; simpl.
  destruct (send _ _) as [[msg | r] n]; simpl; [reflexivity |].
  unfold raise_for_status.
  destruct (is_success r); reflexivity.
Qed.

(** Finishing an exchange with a further step that neither sends nor
    touches the state. *)
Lemma bind_exchange_get req key default st :
  bind (exchange req decoded) (fun result => py_get result key default) st =
  exchange req (field_or key default) st.
Proof.
  unfold bind, exchange.
  destruct (send _ _) as [[msg | r] n]; simpl; [reflexivity |].
  destruct (is_success r); [| reflexivity].
  unfold decoded, field_or, py_get, ret, raise.
  destruct (resp_json r) as [[| | | | | d] |]; try reflexivity.
  destruct (dict_lookup key d); reflexivity.
Qed.

Lemma returning_none_exchange req st :
  returning_none (exchange req (fun _ => inr tt)) st =
  exchange req (fun _ => inr PyNone) st.
Proof.
  unfold returning_none, bind, exchange, ret.
  destruct (send _ _) as [[msg | r] n]; simpl; [reflexivity |].
  destruct (is_success r); reflexivity.
Qed.

Lemma bind_run {A B} (m m' : M A) (k : A -> M B) st :
  m st = m' st -> bind m k st = bind m' k st.
Proof. unfold bind. intros ->. reflexivity. Qed.

Lemma returning_none_run (m m' : M unit) st :
  m st = m' st -> returning_none m st = returning_none m' st.
Proof. apply bind_run. Qed.

Ltac to_exchange :=
  repeat first
    [ rewrite _get_run | rewrite _post_run | rewrite _patch_run | rewrite _delete_run
    | rewrite bind_exchange_get | rewrite returning_none_exchange
    | erewrite bind_run by
        (lazymatch goal with
         | |- _get _ _ _ = _ => rewrite _get_run
         | |- _post _ _ _ = _ => rewrite _post_run
         end; reflexivity)
    | erewrite returning_none_run by (rewrite _delete_run; reflexivity) ].

(** Every method but [login] is one exchange: a request built from the
    base URL and [_headers], and a final step chosen by the method.  Two
    clients with the same base URL and the same headers build the same
    request. *)
Lemma call_exchange o st1 st2 :
  is_login o = false ->
  base_url (self st1) = base_url (self st2) ->
  headers_of (self st1) = headers_of (self st2) ->
  exists req k,
    call o st1 = exchange req k st1 /\
    call o st2 = exchange req k st2 /\
    req_headers req = headers_of (self st1) /\
    (is_delete o = true -> k = fun _ => inr PyNone) /\
    (returns_body o = true -> k = decoded) /\
    (returns_items o = true -> k = field_or "items" (PyList [])) /\
    (o = Op_get_current_user -> k = field_or "record" (PyDict [])).
Proof.
  intros Hlogin Hb Hh.
  destruct o; try discriminate Hlogin; simpl;
    unfold auth_refresh, get_current_user, list_records, get_record, create_record,
      update_record, delete_record, get_systems, get_system, update_system,
      delete_system, get_system_stats, get_container_stats, get_alerts, get_alert,
      create_alert, update_alert, delete_alert, get_alert_history, get_containers;
    unfold auth_refresh, list_records, get_record, create_record, update_record,
      delete_record;
    eexists _, _;
    (split; [to_exchange; reflexivity |]);
    (split; [to_exchange; rewrite <- Hb, <- Hh; reflexivity |]);
    (split; [reflexivity |]);
    repeat split; intros; (discriminate || reflexivity).
Qed.

Lemma login_run email password st :
  login email password st =
  let req := login_request (self st) email password in
  let '(answer, n) := send (net st) req in
  let st' := {| self := self st; net := n; sent := sent st ++ [req] |} in
  match answer with
  | inl msg => (inl (RequestError msg), st')
  | inr r =>
      if is_success r then
        match resp_json r with
        | Some (PyDict d) =>
            match dict_lookup "token" d with
            | Some tok =>
                (inr tok,
                 {| self := {| base_url := base_url (self st); token := tok |};
                    net := n; sent := sent st ++ [req] |})
            | None => (inl (KeyError "token"), st')
            end
        | Some _ => (inl TypeError, st')
        | None => (inl JSONDecodeError, st')
        end
      else (inl (HTTPStatusError r), st')
  end.
Proof.
  unfold login, bind, http_request, get_self; simpl.
  destruct (send _ _) as [[msg | r] n]; simpl; [reflexivity |].
  unfold raise_for_status.
  destruct (is_success r); simpl; [| reflexivity].
  unfold response_json.
  destruct (resp_json r) as [[| | | | | d] |]; simpl; try reflexivity.
  destruct (dict_lookup "token" d); reflexivity.
Qed.

Lemma login_sends email password st :
  sends (login email password) st [login_request (self st) email password].
Proof.
  unfold sends. rewrite login_run. cbv zeta.
  destruct (send _ _) as [[msg | r] n]; [reflexivity |].
  destruct (is_success r); [| reflexivity].
  destruct (resp_json r) as [[| | | | | d] |]; try reflexivity.
  destruct (dict_lookup "token" d); reflexivity.
Qed.

Lemma exchange_sends {A} req (k : Response -> exn + A) st :
  sends (exchange req k) st [req].
Proof.
  unfold sends, exchange.
  destruct (send _ _) as [[msg | r] n]; simpl; [reflexivity |].
  destruct (is_success r); reflexivity.
Qed.

Lemma lookup_json_headers_content_type :
  json_headers !! "Content-Type" = Some (PyStr "application/json").
Proof. reflexivity. Qed.

Lemma lookup_json_headers_authorization :
  json_headers !! "Authorization" = None.
Proof. reflexivity. Qed.

Lemma lookup_headers_of_content_type c :
  headers_of c !! "Content-Type" = Some (PyStr "application/json").
Proof.
  unfold headers_of. destruct (truthy (token c)); [| reflexivity].
  rewrite lookup_insert_ne by discriminate. reflexivity.
Qed.

Lemma lookup_headers_of_authorization c :
  headers_of c !! "Authorization" =
  if truthy (token c) then Some (token c) else None.
Proof.
  unfold headers_of. destruct (truthy (token c)); [| reflexivity].
  apply lookup_insert_eq.
Qed.

Lemma exchange_outcome {A} req (k : Response -> exn + A) st r n :
  send (net st) req = (inr r, n) ->
  exchange req k st =
  (if is_success r then k r else inl (HTTPStatusError r),
   {| self := self st; net := n; sent := sent st ++ [req] |}).
Proof.
  intros Hsend. unfold exchange. rewrite Hsend.
  destruct (is_success r); reflexivity.
Qed.

(** The result, the log and the network after an exchange do not depend
    on the client object. *)
Lemma exchange_client_irrelevant {A} req (k : Response -> exn + A) c1 c2 n l :
  let st1 := {| self := c1; net := n; sent := l |} in
  let st2 := {| self := c2; net := n; sent := l |} in
  (exchange req k st1).1 = (exchange req k st2).1 /\
  sent (exchange req k st1).2 = sent (exchange req k st2).2 /\
  net (exchange req k st1).2 = net (exchange req k st2).2.
Proof.
  unfold exchange; simpl.
  destruct (send n req) as [[msg | r] n']; simpl; [auto |].
  destruct (is_success r); auto.
Qed.

(** ** Query parameters of [list_records] *)

Lemma list_params_page page per_page sort filter_expr expand :
  list_params page per_page sort filter_expr expand !! "page" = Some (PyInt page).
Proof.
  unfold list_params.
  destruct (str_truthy sort), (str_truthy filter_expr), (str_truthy expand);
    reflexivity.
Qed.

Lemma list_params_perPage page per_page sort filter_expr expand :
  list_params page per_page sort filter_expr expand !! "perPage" = Some (PyInt per_page).
Proof.
  unfold list_params.
  destruct (str_truthy sort), (str_truthy filter_expr), (str_truthy expand);
    reflexivity.
Qed.

Lemma list_params_sort page per_page sort filter_expr expand :
  list_params page per_page sort filter_expr expand !! "sort" =
  if str_truthy sort then Some (PyStr sort) else None.
Proof.
  unfold list_params.
  destruct (str_truthy sort), (str_truthy filter_expr), (str_truthy expand);
    reflexivity.
Qed.

Lemma list_params_filter page per_page sort filter_expr expand :
  list_params page per_page sort filter_expr expand !! "filter" =
  if str_truthy filter_expr then Some (PyStr filter_expr) else None.
Proof.
  unfold list_params.
  destruct (str_truthy sort), (str_truthy filter_expr), (str_truthy expand);
    reflexivity.
Qed.

Lemma list_params_expand page per_page sort filter_expr expand :
  list_params page per_page sort filter_expr expand !! "expand" =
  if str_truthy expand then Some (PyStr expand) else None.
Proof.
  unfold list_params.
  destruct (str_truthy sort), (str_truthy filter_expr), (str_truthy expand);
    reflexivity.
Qed.

Lemma list_params_dom page per_page sort filter_expr expand :
  dom (list_params page per_page sort filter_expr expand)
    ⊆ ({[ "page"; "perPage"; "sort"; "filter"; "expand" ]} : gset string).
Proof.
  unfold list_params.
  destruct (str_truthy sort), (str_truthy filter_expr), (str_truthy expand);
    rewrite ?dom_insert_L, dom_singleton_L;
    intros k; rewrite !elem_of_union, !elem_of_singleton; tauto.
Qed.

(** An optional string argument as a query parameter. *)
Lemma optional_param (s : string) :
  let entry := if str_truthy s then Some (PyStr s) else None in
  entry = (if decide (s = EmptyString) then None else Some (PyStr s)) /\
  (is_Some entry <-> s <> EmptyString) /\
  entry <> Some (PyStr EmptyString).
Proof.
  destruct s as [| a s']; simpl.
  - split; [reflexivity |]. split; [| discriminate].
    split; [intros [v Hv]; discriminate Hv | intros H; contradiction].
  - split; [reflexivity |]. split; [| discriminate].
    split; [discriminate | eauto].
Qed.

Lemma list_records_run collection page per_page sort filter_expr expand st :
  list_records collection page per_page sort filter_expr expand st =
  exchange {| req_method := GET;
              req_url := base_url (self st) +:+ "/api/collections/" +:+ collection
                           +:+ "/records";
              req_headers := headers_of (self st);
              req_params := Some (list_params page per_page sort filter_expr expand);
              req_json := None |} decoded st.
Proof. unfold list_records. apply _get_run. Qed.

(** ** Authentication *)

(** C1: [login(email, password)] sends one request, a POST to
    [/api/collections/users/auth-with-password] under the base URL whose
    JSON body is [{"identity": email, "password": password}] and whose
    headers hold no [Authorization] entry, whatever the client's token
    is; when the response has a success status and its body is a mapping
    with a [token] field, that field's value becomes the client's token
    and is the value returned. *)
Theorem login_posts_credentials_and_stores_token email password st :
  let req :=
    {| req_method := POST;
       req_url := base_url (self st) +:+ "/api/collections/users/auth-with-password";
       req_headers := {[ "Content-Type" := PyStr "application/json" ]};
       req_params := None;
       req_json := Some (PyDict [("identity", PyStr email); ("password", PyStr password)]) |} in
  sends (login email password) st [req] /\
  req_headers req !! "Authorization" = None /\
  forall r n d tok,
    send (net st) req = (inr r, n) ->
    is_success r = true ->
    resp_json r = Some (PyDict d) ->
    dict_lookup "token" d = Some tok ->
    (login email password st).1 = inr tok /\
    token (self (login email password st).2) = tok.
Proof.
  intros req.
  assert (Hreq : login_request (self st) email password = req) by reflexivity.
  split; [| split; [reflexivity |]].
  - rewrite <- Hreq. apply login_sends.
  - intros r n d tok Hsend Hok Hbody Htok.
    rewrite login_run, Hreq. cbv zeta.
    rewrite Hsend, Hok, Hbody, Htok. split; reflexivity.
Qed.

(** C5: when the response to [login] has a non-success status, [login]
    raises the HTTP status error that carries that response (and so its
    status code), and the client object, its token included, is what it
    was before the call. *)
Theorem login_failure_raises_and_keeps_token email password st r n :
  send (net st) (login_request (self st) email password) = (inr r, n) ->
  is_success r = false ->
  (login email password st).1 = inl (HTTPStatusError r) /\
  token (self (login email password st).2) = token (self st) /\
  self (login email password st).2 = self st.
Proof.
  intros Hsend Hbad. rewrite login_run. cbv zeta.
  rewrite Hsend, Hbad. repeat split; reflexivity.
Qed.

(** C7: [get_current_user] posts to the refresh endpoint; when the
    response has a success status and its body is a mapping, the result
    is the value of the body's [record] field if the key is present and
    the empty mapping otherwise, and the client object is unchanged. *)
Theorem get_current_user_returns_record st :
  let req :=
    {| req_method := POST;
       req_url := base_url (self st) +:+ "/api/collections/users/auth-refresh";
       req_headers := headers_of (self st);
       req_params := None;
       req_json := Some (PyDict []) |} in
  sends get_current_user st [req] /\
  forall r n d,
    send (net st) req = (inr r, n) ->
    is_success r = true ->
    resp_json r = Some (PyDict d) ->
    (get_current_user st).1 =
      inr (match dict_lookup "record" d with
           | Some record => record
           | None => PyDict []
           end) /\
    self (get_current_user st).2 = self st.
Proof.
  intros req.
  assert (Hrun : get_current_user st = exchange req (field_or "record" (PyDict [])) st).
  { unfold get_current_user, auth_refresh. to_exchange. reflexivity. }
  split.
  - unfold sends. rewrite Hrun. apply exchange_sends.
  - intros r n d Hsend Hok Hbody.
    rewrite Hrun, (exchange_outcome _ _ _ _ _ Hsend), Hok. simpl.
    unfold field_or. rewrite Hbody.
    destruct (dict_lookup "record" d); split; reflexivity.
Qed.

(** ** Generic list *)

(** C2: [list_records] sends one GET to
    [/api/collections/{collection}/records] under the base URL; its query
    parameters always hold [page] and [perPage] with the given values,
    hold [sort], [filter] and [expand] exactly when the corresponding
    argument is a non-empty string (then with that string as value, so
    never with an empty string), and hold no other key. *)
Theorem list_records_query_parameters
    collection page per_page sort filter_expr expand st :
  exists p : gmap string pyvalue,
    sends (list_records collection page per_page sort filter_expr expand) st
      [ {| req_method := GET;
           req_url := base_url (self st) +:+ "/api/collections/" +:+ collection
                        +:+ "/records";
           req_headers := headers_of (self st);
           req_params := Some p;
           req_json := None |} ] /\
    p !! "page" = Some (PyInt page) /\
    p !! "perPage" = Some (PyInt per_page) /\
    p !! "sort" = (if decide (sort = EmptyString) then None else Some (PyStr sort)) /\
    p !! "filter" =
      (if decide (filter_expr = EmptyString) then None else Some (PyStr filter_expr)) /\
    p !! "expand" = (if decide (expand = EmptyString) then None else Some (PyStr expand)) /\
    (is_Some (p !! "sort") <-> sort <> EmptyString) /\
    (is_Some (p !! "filter") <-> filter_expr <> EmptyString) /\
    (is_Some (p !! "expand") <-> expand <> EmptyString) /\
    p !! "sort" <> Some (PyStr EmptyString) /\
    p !! "filter" <> Some (PyStr EmptyString) /\
    p !! "expand" <> Some (PyStr EmptyString) /\
    dom p ⊆ ({[ "page"; "perPage"; "sort"; "filter"; "expand" ]} : gset string).
Proof.
  exists (list_params page per_page sort filter_expr expand).
  split.
  { unfold sends. rewrite list_records_run. apply exchange_sends. }
  rewrite list_params_page, list_params_perPage, list_params_sort,
    list_params_filter, list_params_expand.
  destruct (optional_param sort) as (Hs1 & Hs2 & Hs3).
  destruct (optional_param filter_expr) as (Hf1 & Hf2 & Hf3).
  destruct (optional_param expand) as (He1 & He2 & He3).
  pose proof (list_params_dom page per_page sort filter_expr expand) as Hdom.
  tauto.
Qed.

(** ** Headers *)

(** C4: every method other than [login] sends one request whose headers
    hold [Content-Type: application/json]; they hold an [Authorization]
    entry exactly when the client's token is present (truthy, the test
    [_headers] makes), and then its value is the token itself, with no
    prefix: no entry when the token is [None], the string itself when
    the token is a non-empty string. *)
Theorem requests_carry_json_and_raw_token o st :
  is_login o = false ->
  exists req,
    sends (call o) st [req] /\
    req_headers req !! "Content-Type" = Some (PyStr "application/json") /\
    req_headers req !! "Authorization" =
      (if truthy (token (self st)) then Some (token (self st)) else None) /\
    (token (self st) = PyNone -> req_headers req !! "Authorization" = None) /\
    (forall t, token (self st) = PyStr t -> t <> EmptyString ->
       req_headers req !! "Authorization" = Some (PyStr t)).
Proof.
  intros Hlogin.
  destruct (call_exchange o st st Hlogin eq_refl eq_refl)
    as (req & k & Hrun & _ & Hh & _).
  exists req. split.
  { unfold sends. rewrite Hrun. apply exchange_sends. }
  rewrite Hh, lookup_headers_of_content_type, lookup_headers_of_authorization.
  repeat split.
  - intros ->. reflexivity.
  - intros t -> Ht. destruct t; [congruence | reflexivity].
Qed.

(** ** The [items] default *)

Lemma returns_items_not_login o : returns_items o = true -> is_login o = false.
Proof. destruct o; simpl; congruence. Qed.

(** C3, as the code has it: [list_records] hands on the parsed body as it
    is, so a body without [items] comes back without the key; the default
    is applied one level up, by the list accessors ([get_systems],
    [get_system_stats], [get_container_stats], [get_alerts],
    [get_alert_history], [get_containers]), each of which returns the
    empty list when the body is a mapping without [items]. *)
Theorem items_default_is_applied_by_accessors :
  (forall o st, returns_items o = true ->
     exists req,
       sends (call o) st [req] /\
       forall r n d,
         send (net st) req = (inr r, n) ->
         is_success r = true ->
         resp_json r = Some (PyDict d) ->
         dict_lookup "items" d = None ->
         (call o st).1 = inr (PyList [])) /\
  (forall collection page per_page sort filter_expr expand st,
     exists req,
       sends (list_records collection page per_page sort filter_expr expand) st [req] /\
       forall r n body,
         send (net st) req = (inr r, n) ->
         is_success r = true ->
         resp_json r = Some body ->
         (list_records collection page per_page sort filter_expr expand st).1 = inr body).
Proof.
  split.
  - intros o st Hitems.
    destruct (call_exchange o st st (returns_items_not_login o Hitems) eq_refl eq_refl)
      as (req & k & Hrun & _ & _ & _ & _ & Hk & _).
    specialize (Hk Hitems). subst k.
    exists req. split.
    { unfold sends. rewrite Hrun. apply exchange_sends. }
    intros r n d Hsend Hok Hbody Hnone.
    rewrite Hrun, (exchange_outcome _ _ _ _ _ Hsend), Hok. simpl.
    unfold field_or. rewrite Hbody, Hnone. reflexivity.
  - intros collection page per_page sort filter_expr expand st.
    eexists. split.
    { unfold sends. rewrite list_records_run. apply exchange_sends. }
    intros r n body Hsend Hok Hbody.
    rewrite list_records_run, (exchange_outcome _ _ _ _ _ Hsend), Hok. simpl.
    unfold decoded. rewrite Hbody. reflexivity.
Qed.

(** ** Status handling *)

(** C8, as the code has it: every method sends one request.  When the
    response has a non-success status the method raises the HTTP status
    error carrying that very response, and leaves the client unchanged.
    When the status is a success, the methods ending in [_delete] return
    nothing, the transport helpers and the methods that return their
    result unchanged return the parsed JSON body, and the others return a
    field of a body that is a mapping: the list accessors its [items] (or
    the empty list), [get_current_user] its [record] (or the empty
    mapping), [login] its [token]. *)
Theorem status_decides_the_outcome o st :
  exists req,
    sends (call o) st [req] /\
    forall r n,
      send (net st) req = (inr r, n) ->
      (is_success r = false ->
         (call o st).1 = inl (HTTPStatusError r) /\
         self (call o st).2 = self st) /\
      (is_success r = true ->
         (is_delete o = true -> (call o st).1 = inr PyNone) /\
         (returns_body o = true ->
            forall body, resp_json r = Some body -> (call o st).1 = inr body) /\
         (returns_items o = true ->
            forall d, resp_json r = Some (PyDict d) ->
              (call o st).1 = inr (default (PyList []) (dict_lookup "items" d))) /\
         (o = Op_get_current_user ->
            forall d, resp_json r = Some (PyDict d) ->
              (call o st).1 = inr (default (PyDict []) (dict_lookup "record" d))) /\
         (is_login o = true ->
            forall d tok, resp_json r = Some (PyDict d) ->
              dict_lookup "token" d = Some tok -> (call o st).1 = inr tok)).
Proof.
  destruct (is_login o) eqn:Hlogin.
  - destruct o; try discriminate Hlogin. simpl.
    eexists. split; [apply login_sends |].
    intros r n Hsend. rewrite login_run. cbv zeta.
    rewrite Hsend. split.
    + intros ->. split; reflexivity.
    + intros ->. repeat split; try discriminate.
      intros _ d tok -> ->. reflexivity.
  - destruct (call_exchange o st st Hlogin eq_refl eq_refl)
      as (req & k & Hrun & _ & _ & Hdel & Hbody & Hitems & Huser).
    exists req. split.
    { unfold sends. rewrite Hrun. apply exchange_sends. }
    intros r n Hsend. rewrite Hrun, (exchange_outcome _ _ _ _ _ Hsend).
    split.
    + intros ->. split; reflexivity.
    + intros ->. simpl. repeat split.
      * intros Hd. rewrite (Hdel Hd). reflexivity.
      * intros Hb body Hjson. rewrite (Hbody Hb). unfold decoded.
        rewrite Hjson. reflexivity.
      * intros Hi d Hjson. rewrite (Hitems Hi). unfold field_or.
        rewrite Hjson. destruct (dict_lookup "items" d); reflexivity.
      * intros Hu d Hjson. rewrite (Huser Hu). unfold field_or.
        rewrite Hjson. destruct (dict_lookup "record" d); reflexivity.
      * discriminate.
Qed.

(** ** The empty token *)

(** C9: a client whose token is the empty string behaves as a client
    with no token: for every method the request sent has no
    [Authorization] header, and result, requests sent and network are the
    same as for the client whose token is [None]. *)
Theorem empty_token_is_no_token o url n l :
  let st_empty :=
    {| self := {| base_url := url; token := PyStr EmptyString |}; net := n; sent := l |} in
  let st_none :=
    {| self := {| base_url := url; token := PyNone |}; net := n; sent := l |} in
  (call o st_empty).1 = (call o st_none).1 /\
  sent (call o st_empty).2 = sent (call o st_none).2 /\
  net (call o st_empty).2 = net (call o st_none).2 /\
  exists req,
    sends (call o) st_empty [req] /\
    req_headers req !! "Authorization" = None.
Proof.
  intros st_empty st_none.
  destruct (is_login o) eqn:Hlogin.
  - destruct o; try discriminate Hlogin. simpl.
    pose proof (login_sends email password st_empty) as Hsends.
    rewrite !login_run. simpl.
    unfold login_request; simpl.
    repeat split.
    4: { eexists. split; [exact Hsends | reflexivity]. }
    all: destruct (send n _) as [[msg | r] n']; simpl; try reflexivity;
      destruct (is_success r); try reflexivity;
      destruct (resp_json r) as [[| | | | | d] |]; try reflexivity;
      destruct (dict_lookup "token" d); reflexivity.
  - destruct (call_exchange o st_empty st_none Hlogin eq_refl eq_refl)
      as (req & k & Hrun1 & Hrun2 & Hh & _).
    rewrite Hrun1, Hrun2.
    destruct (exchange_client_irrelevant req k (self st_empty) (self st_none) n l)
      as (H1 & H2 & H3).
    repeat split; try assumption.
    exists req. split; [unfold sends; rewrite Hrun1; apply exchange_sends |].
    rewrite Hh. reflexivity.
Qed.

(** ** Filters of the domain accessors *)

Ltac list_accessor :=
  unfold sends_filter, sends, get_system_stats, get_container_stats, get_containers,
    get_alerts, list_records;
  eexists _, _; split; [to_exchange; apply exchange_sends |];
  split; [reflexivity |]; split; [reflexivity |];
  rewrite list_params_filter.

Lemma get_system_stats_filter system_id record_type per_page st :
  sends_filter (get_system_stats system_id record_type per_page) st
    (Some (PyStr (system_type_filter system_id record_type))).
Proof. list_accessor. reflexivity. Qed.

Lemma get_container_stats_filter system_id per_page st :
  sends_filter (get_container_stats system_id per_page) st
    (Some (PyStr (system_filter system_id))).
Proof. list_accessor. reflexivity. Qed.

Lemma get_containers_filter system_id st :
  sends_filter (get_containers system_id) st
    (if str_truthy system_id then Some (PyStr (system_filter system_id)) else None).
Proof. list_accessor. destruct system_id; reflexivity. Qed.

Lemma get_alerts_filter system_id st :
  sends_filter (get_alerts system_id) st
    (if str_truthy system_id then Some (PyStr (system_filter system_id)) else None).
Proof. list_accessor. destruct system_id; reflexivity. Qed.

Lemma list_ascii_of_string_append (s t : string) :
  String.list_ascii_of_string (s +:+ t) =
  String.list_ascii_of_string s ++ String.list_ascii_of_string t.
Proof. induction s as [| a s IH]; simpl; [reflexivity | rewrite IH; reflexivity]. Qed.

(** C6: [get_system_stats(system_id, record_type)] sends the filter
    [system="<system_id>" && type="<record_type>"] (for ["sys1"] and
    ["10m"], character by character, [system="sys1" && type="10m"]);
    [get_containers] and [get_alerts] send no [filter] parameter when the
    system id is empty and the filter [system="<system_id>"] otherwise. *)
Theorem accessor_filters st :
  (forall system_id record_type per_page,
     sends_filter (get_system_stats system_id record_type per_page) st
       (Some (PyStr ("system=" +:+ dquote +:+ system_id +:+ dquote +:+ " && type="
                       +:+ dquote +:+ record_type +:+ dquote)))) /\
  (forall per_page,
     exists f,
       sends_filter (get_system_stats "sys1" "10m" per_page) st (Some (PyStr f)) /\
       codes f = [115; 121; 115; 116; 101; 109; 61; 34; 115; 121; 115; 49; 34; 32;
                  38; 38; 32; 116; 121; 112; 101; 61; 34; 49; 48; 109; 34]%nat) /\
  sends_filter (get_containers EmptyString) st None /\
  sends_filter (get_alerts EmptyString) st None /\
  (forall system_id,
     sends_filter (get_containers system_id) st
       (if decide (system_id = EmptyString) then None
        else Some (PyStr ("system=" +:+ dquote +:+ system_id +:+ dquote)))) /\
  (forall system_id,
     sends_filter (get_alerts system_id) st
       (if decide (system_id = EmptyString) then None
        else Some (PyStr ("system=" +:+ dquote +:+ system_id +:+ dquote)))) /\
  (exists f,
     sends_filter (get_containers "sys1") st (Some (PyStr f)) /\
     codes f = [115; 121; 115; 116; 101; 109; 61; 34; 115; 121; 115; 49; 34]%nat).
Proof.
  split; [intros; apply get_system_stats_filter |].
  split.
  { intros per_page. eexists. split; [apply get_system_stats_filter | reflexivity]. }
  split; [apply (get_containers_filter EmptyString) |].
  split; [apply (get_alerts_filter EmptyString) |].
  split.
  { intros system_id. pose proof (get_containers_filter system_id st) as H.
    destruct system_id; exact H. }
  split.
  { intros system_id. pose proof (get_alerts_filter system_id st) as H.
    destruct system_id; exact H. }
  eexists. split; [apply (get_containers_filter "sys1") | reflexivity].
Qed.

(** C10: the ids are interpolated as they are.  For a non-empty system
    id, [get_containers] and [get_alerts] send as filter the characters
    [system=], a double quote, the characters of the id unchanged, and a
    double quote; [get_system_stats] sends those followed by [ && type=],
    a double quote, the characters of the record type unchanged, and a
    double quote.  Nothing is escaped: every double quote of an id is in
    the filter, so an id that holds one closes the quoted value early. *)
Theorem filters_interpolate_ids_verbatim system_id record_type per_page st :
  system_id <> EmptyString ->
  exists f g,
    sends_filter (get_containers system_id) st (Some (PyStr f)) /\
    sends_filter (get_alerts system_id) st (Some (PyStr f)) /\
    sends_filter (get_system_stats system_id record_type per_page) st (Some (PyStr g)) /\
    f = "system=" +:+ dquote +:+ system_id +:+ dquote /\
    g = "system=" +:+ dquote +:+ system_id +:+ dquote +:+ " && type="
          +:+ dquote +:+ record_type +:+ dquote /\
    String.list_ascii_of_string f =
      String.list_ascii_of_string "system=" ++ [dquote_char]
        ++ String.list_ascii_of_string system_id ++ [dquote_char] /\
    String.list_ascii_of_string g =
      String.list_ascii_of_string f ++ String.list_ascii_of_string " && type="
        ++ [dquote_char] ++ String.list_ascii_of_string record_type ++ [dquote_char] /\
    (dquote_char ∈ String.list_ascii_of_string system_id ->
     exists before after,
       String.list_ascii_of_string f =
         String.list_ascii_of_string "system=" ++ [dquote_char] ++ before
           ++ [dquote_char] ++ after ++ [dquote_char]).
Proof.
  intros Hne.
  exists (system_filter system_id), (system_type_filter system_id record_type).
  split.
  { pose proof (get_containers_filter system_id st) as H.
    destruct system_id; [congruence | exact H]. }
  split.
  { pose proof (get_alerts_filter system_id st) as H.
    destruct system_id; [congruence | exact H]. }
  split; [apply get_system_stats_filter |].
  split; [reflexivity |]. split; [reflexivity |].
  assert (Hf : String.list_ascii_of_string (system_filter system_id) =
               String.list_ascii_of_string "system=" ++ [dquote_char]
                 ++ String.list_ascii_of_string system_id ++ [dquote_char]).
  { unfold system_filter. rewrite !list_ascii_of_string_append. reflexivity. }
  split; [exact Hf |]. split.
  { rewrite Hf. unfold system_type_filter.
    rewrite !list_ascii_of_string_append. simpl. rewrite <- !app_assoc. reflexivity. }
  intros Hin. apply list_elem_of_split in Hin as (before & after & Hsplit).
  exists before, after. rewrite Hf, Hsplit. rewrite <- !app_assoc. reflexivity.
Qed.

(** ** Further properties of the client *)

Lemma exchange_self {A} req (k : Response -> exn + A) st :
  self (exchange req k st).2 = self st.
Proof.
  unfold exchange.
  destruct (send _ _) as [[msg | r] n]; simpl; [reflexivity |].
  destruct (is_success r); reflexivity.
Qed.

Lemma exchange_transport_failure {A} req (k : Response -> exn + A) st msg n :
  send (net st) req = (inl msg, n) ->
  exchange req k st =
  (inl (RequestError msg), {| self := self st; net := n; sent := sent st ++ [req] |}).
Proof. intros Hsend. unfold exchange. rewrite Hsend. reflexivity. Qed.

(** The request of every method but [login]: its method, its URL, and
    which of body and query parameters it can carry. *)
Lemma call_request o st :
  is_login o = false ->
  exists req k,
    call o st = exchange req k st /\
    req_method req = method_of o /\
    (exists path,
       req_url req = base_url (self st) +:+ path /\
       (is_helper o = false -> exists rest, path = "/api/collections/" +:+ rest)) /\
    (method_of o = GET \/ method_of o = DELETE -> req_json req = None) /\
    (method_of o = POST \/ method_of o = PATCH -> req_params req = None) /\
    (method_of o = POST \/ method_of o = PATCH -> exists body, req_json req = Some body) /\
    (is_delete o = true -> k = fun _ => inr PyNone) /\
    (is_delete o = false -> returns_items o = false -> o <> Op_get_current_user ->
       k = decoded) /\
    (returns_items o = true -> k = field_or "items" (PyList [])) /\
    (o = Op_get_current_user -> k = field_or "record" (PyDict [])).
Proof.
  intros Hlogin.
  destruct o; try discriminate Hlogin; simpl;
    unfold auth_refresh, get_current_user, list_records, get_record, create_record,
      update_record, delete_record, get_systems, get_system, update_system,
      delete_system, get_system_stats, get_container_stats, get_alerts, get_alert,
      create_alert, update_alert, delete_alert, get_alert_history, get_containers;
    unfold auth_refresh, list_records, get_record, create_record, update_record,
      delete_record;
    eexists _, _;
    (split; [to_exchange; reflexivity |]);
    (split; [reflexivity |]);
    (split; [eexists; split; [reflexivity | intros; first [discriminate | eexists; reflexivity]] |]);
    repeat split; intros; simpl in *;
      try congruence; try reflexivity; try (eexists; reflexivity);
      try (match goal with H : _ \/ _ |- _ => destruct H; discriminate end).
Qed.

Lemma append_nil_l (s : string) : EmptyString +:+ s = s.
Proof. reflexivity. Qed.

Lemma append_cons (a : Ascii.ascii) (s t : string) : String a s +:+ t = String a (s +:+ t).
Proof. reflexivity. Qed.

Lemma login_outcome email password st :
  match (login email password st).1 with
  | inr tok =>
      self (login email password st).2 = {| base_url := base_url (self st); token := tok |}
  | inl _ => self (login email password st).2 = self st
  end.
Proof.
  rewrite login_run. cbv zeta.
  destruct (send _ _) as [[msg | r] n]; simpl; [reflexivity |].
  destruct (is_success r); simpl; [| reflexivity].
  destruct (resp_json r) as [[| | | | | d] |]; simpl; try reflexivity.
  destruct (dict_lookup "token" d); reflexivity.
Qed.

(** X1: the base URL a client keeps is the URL it was given without its
    trailing slashes: the given URL is the base URL followed by slashes
    only, and the base URL does not end in a slash. *)
Theorem base_url_is_url_without_trailing_slashes url tok :
  exists n,
    url = base_url (BeszelClient_init url tok) +:+ slashes n /\
    forall s, base_url (BeszelClient_init url tok) <> s +:+ String slash_char EmptyString.
Proof.
  change (base_url (BeszelClient_init url tok)) with (rstrip_slash url).
  induction url as [| c url' IH].
  - exists O. split; [reflexivity |]. intros [| a s]; discriminate.
  - destruct IH as (n & Hurl & Hend).
    change (rstrip_slash (String c url')) with
      (match rstrip_slash url' with
       | EmptyString =>
           if Ascii.eqb c slash_char then EmptyString else String c EmptyString
       | String a r => String c (String a r)
       end).
    destruct (rstrip_slash url') as [| a r] eqn:Hr.
    + rewrite append_nil_l in Hurl.
      destruct (Ascii.eqb_spec c slash_char) as [-> | Hc].
      * exists (S n). split; [rewrite append_nil_l; simpl; f_equal; exact Hurl |].
        intros [| a s]; discriminate.
      * exists n. split; [rewrite append_cons, append_nil_l; f_equal; exact Hurl |].
        intros [| a s]; rewrite ?append_cons, ?append_nil_l; intros Heq.
        -- inversion Heq. contradiction.
        -- inversion Heq as [[Ha Hs]]. destruct s; discriminate.
    + exists n. split; [rewrite append_cons; f_equal; exact Hurl |].
      intros [| b s]; rewrite ?append_cons, ?append_nil_l; intros Heq.
      * discriminate.
      * inversion Heq as [[Hb Hs]]. apply (Hend s). exact Hs.
Qed.

(** X2: [login] updates the client all or nothing.  When it returns a
    value, the client's token is that value and the base URL is unchanged;
    when it raises, whatever the exception, the client is what it was. *)
Theorem login_updates_client_all_or_nothing email password st :
  match (login email password st).1 with
  | inr tok =>
      token (self (login email password st).2) = tok /\
      base_url (self (login email password st).2) = base_url (self st)
  | inl _ => self (login email password st).2 = self st
  end.
Proof.
  pose proof (login_outcome email password st) as H.
  destruct ((login email password st).1); [exact H |].
  rewrite H. split; reflexivity.
Qed.

(** X3: a success response to [login] that does not carry a token is an
    error, not a login: a mapping without [token] raises [KeyError], a
    body that is no mapping raises [TypeError], a body that does not
    decode raises the decoding error; the token stays what it was. *)
Theorem login_without_token_in_response email password st r n :
  send (net st) (login_request (self st) email password) = (inr r, n) ->
  is_success r = true ->
  (forall d, resp_json r = Some (PyDict d) -> dict_lookup "token" d = None ->
     (login email password st).1 = inl (KeyError "token")) /\
  (forall v, resp_json r = Some v -> is_dict v = false ->
     (login email password st).1 = inl TypeError) /\
  (resp_json r = None -> (login email password st).1 = inl JSONDecodeError) /\
  ((forall d tok, resp_json r = Some (PyDict d) -> dict_lookup "token" d <> Some tok) ->
     token (self (login email password st).2) = token (self st)).
Proof.
  intros Hsend Hok. rewrite login_run. cbv zeta. rewrite Hsend, Hok.
  repeat split.
  - intros d -> ->. reflexivity.
  - intros v -> Hv. destruct v; try reflexivity. discriminate Hv.
  - intros ->. reflexivity.
  - intros Hno. destruct (resp_json r) as [[| | | | | d] |]; try reflexivity.
    destruct (dict_lookup "token" d) as [tok |] eqn:Htok; [| reflexivity].
    exfalso. apply (Hno d tok eq_refl). exact Htok.
Qed.

(** X4: only [login] changes the client.  Every other method leaves base
    URL and token as they are, whatever the server answers; no method
    changes the base URL. *)
Theorem only_login_changes_the_client o st :
  base_url (self (call o st).2) = base_url (self st) /\
  (is_login o = false -> self (call o st).2 = self st).
Proof.
  destruct (is_login o) eqn:Hlogin.
  - split; [| discriminate].
    destruct o; try discriminate Hlogin. simpl.
    pose proof (login_outcome email password st) as H.
    destruct ((login email password st).1); rewrite H; reflexivity.
  - destruct (call_request o st Hlogin) as (req & k & Hrun & _).
    rewrite Hrun, exchange_self. split; reflexivity.
Qed.


(** X6: a transport failure surfaces as such.  When the request cannot be
    delivered, every method raises the request error with the transport's
    message, after exactly one attempt, and the client is unchanged. *)
Theorem transport_failure_propagates o st :
  exists req,
    sends (call o) st [req] /\
    forall msg n,
      send (net st) req = (inl msg, n) ->
      (call o st).1 = inl (RequestError msg) /\
      self (call o st).2 = self st /\
      net (call o st).2 = n.
Proof.
  destruct (is_login o) eqn:Hlogin.
  - destruct o; try discriminate Hlogin. simpl.
    eexists. split; [apply login_sends |].
    intros msg n Hsend. rewrite login_run. cbv zeta. rewrite Hsend.
    repeat split; reflexivity.
  - destruct (call_request o st Hlogin) as (req & k & Hrun & _).
    exists req. split; [unfold sends; rewrite Hrun; apply exchange_sends |].
    intros msg n Hsend. rewrite Hrun, (exchange_transport_failure _ _ _ _ _ Hsend).
    repeat split; reflexivity.
Qed.

Lemma call_finish o st :
  is_login o = false ->
  exists req, call o st = exchange req (finish o) st.
Proof.
  intros Hlogin.
  destruct (call_request o st Hlogin)
    as (req & k & Hrun & _ & _ & _ & _ & _ & Hdel & Hdec & Hitems & Huser).
  exists req. rewrite Hrun. f_equal.
  destruct o; try discriminate Hlogin; unfold finish; simpl in *;
    first [ apply (Hdel eq_refl) | apply (Hitems eq_refl) | apply (Huser eq_refl)
          | apply (Hdec eq_refl eq_refl); discriminate ].
Qed.

(** X7: a success response whose body does not decode as JSON makes every
    method raise the decoding error, except the methods that delete: they
    never read the body and return nothing. *)
Theorem undecodable_body_raises_except_for_delete o st :
  exists req,
    sends (call o) st [req] /\
    forall r n,
      send (net st) req = (inr r, n) ->
      is_success r = true ->
      resp_json r = None ->
      (call o st).1 = (if is_delete o then inr PyNone else inl JSONDecodeError).
Proof.
  destruct (is_login o) eqn:Hlogin.
  - destruct o; try discriminate Hlogin. simpl.
    eexists. split; [apply login_sends |].
    intros r n Hsend Hok Hjson. rewrite login_run. cbv zeta.
    rewrite Hsend, Hok, Hjson. reflexivity.
  - destruct (call_finish o st Hlogin) as (req & Hrun).
    exists req. split; [unfold sends; rewrite Hrun; apply exchange_sends |].
    intros r n Hsend Hok Hjson.
    rewrite Hrun, (exchange_outcome _ _ _ _ _ Hsend), Hok. simpl.
    unfold finish. destruct (is_delete o); [reflexivity |].
    destruct (returns_items o).
    { unfold field_or. rewrite Hjson. reflexivity. }
    destruct o; unfold decoded, field_or; rewrite Hjson; reflexivity.
Qed.

(** X8: the list accessors and [get_current_user] call [.get] on the
    parsed body, so a success response whose body is valid JSON but not a
    mapping (a list, a string, a number, null) makes them raise
    [AttributeError] instead of returning the default. *)
Theorem non_mapping_body_raises_attribute_error o st :
  returns_items o = true \/ o = Op_get_current_user ->
  exists req,
    sends (call o) st [req] /\
    forall r n v,
      send (net st) req = (inr r, n) ->
      is_success r = true ->
      resp_json r = Some v ->
      is_dict v = false ->
      (call o st).1 = inl AttributeError.
Proof.
  intros Hkind.
  assert (Hlogin : is_login o = false).
  { destruct Hkind as [H | ->]; [apply returns_items_not_login; exact H | reflexivity]. }
  destruct (call_finish o st Hlogin) as (req & Hrun).
  exists req. split; [unfold sends; rewrite Hrun; apply exchange_sends |].
  intros r n v Hsend Hok Hjson Hv.
  rewrite Hrun, (exchange_outcome _ _ _ _ _ Hsend), Hok. simpl.
  assert (Hfin : exists key dflt, finish o = field_or key dflt).
  { destruct Hkind as [H | ->]; [| eexists _, _; reflexivity].
    destruct o; try discriminate H; eexists _, _; reflexivity. }
  destruct Hfin as (key & dflt & ->).
  unfold field_or. rewrite Hjson. destruct v; try reflexivity. discriminate Hv.
Qed.

(** X9: [get_record] sends one GET to
    [/api/collections/{collection}/records/{record_id}]; its query
    parameters hold [expand] exactly when the argument is non-empty and
    never anything else, so without [expand] the parameter dict is empty. *)
Theorem get_record_request collection record_id expand st :
  exists p : gmap string pyvalue,
    sends (get_record collection record_id expand) st
      [ {| req_method := GET;
           req_url := base_url (self st) +:+ "/api/collections/" +:+ collection
                        +:+ "/records/" +:+ record_id;
           req_headers := headers_of (self st);
           req_params := Some p;
           req_json := None |} ] /\
    p !! "expand" = (if decide (expand = EmptyString) then None else Some (PyStr expand)) /\
    (forall key, key <> "expand" -> p !! key = None) /\
    (expand = EmptyString -> p = ∅).
Proof.
  eexists. split.
  { unfold sends, get_record. rewrite _get_run. apply exchange_sends. }
  destruct expand as [| a e]; simpl.
  - split; [reflexivity |]. split; [| reflexivity]. intros key _. apply lookup_empty.
  - split; [apply lookup_insert_eq |]. split; [| discriminate].
    intros key Hkey. rewrite lookup_insert_ne by congruence. apply lookup_empty.
Qed.

(** X10: what the writing methods put on the wire.  [create_record] posts
    the data to [/api/collections/{collection}/records], but any falsy
    data ([None], an empty dict, ...) is replaced by the empty dict;
    [update_record] sends its data unchanged in a PATCH to the record's
    URL; [delete_record] sends a DELETE to the same URL with neither body
    nor query parameters. *)
Theorem write_requests collection record_id data st :
  sends (create_record collection data) st
    [ {| req_method := POST;
         req_url := base_url (self st) +:+ "/api/collections/" +:+ collection +:+ "/records";
         req_headers := headers_of (self st);
         req_params := None;
         req_json := Some (if truthy data then data else PyDict []) |} ] /\
  sends (update_record collection record_id data) st
    [ {| req_method := PATCH;
         req_url := base_url (self st) +:+ "/api/collections/" +:+ collection
                      +:+ "/records/" +:+ record_id;
         req_headers := headers_of (self st);
         req_params := None;
         req_json := Some data |} ] /\
  sends (delete_record collection record_id) st
    [ {| req_method := DELETE;
         req_url := base_url (self st) +:+ "/api/collections/" +:+ collection
                      +:+ "/records/" +:+ record_id;
         req_headers := headers_of (self st);
         req_params := None;
         req_json := None |} ].
Proof.
  unfold sends, create_record, update_record, delete_record.
  rewrite _post_run, _patch_run, _delete_run.
  repeat split; apply exchange_sends.
Qed.

(** X11: every method sends the HTTP method of its kind (reading: GET,
    creating and authenticating: POST, updating: PATCH, deleting: DELETE);
    a GET or DELETE never carries a JSON body, a POST or PATCH always
    carries one and never carries query parameters. *)
Theorem operations_use_their_http_method o st :
  exists req,
    sends (call o) st [req] /\
    req_method req = method_of o /\
    (req_method req = GET \/ req_method req = DELETE -> req_json req = None) /\
    (req_method req = POST \/ req_method req = PATCH ->
       req_params req = None /\ exists body, req_json req = Some body).
Proof.
  destruct (is_login o) eqn:Hlogin.
  - destruct o; try discriminate Hlogin. simpl.
    eexists. split; [apply login_sends |]. simpl.
    split; [reflexivity |]. split.
    + intros [H | H]; discriminate H.
    + intros _. split; [reflexivity | eexists; reflexivity].
  - destruct (call_request o st Hlogin)
      as (req & k & Hrun & Hm & _ & Hnobody & Hnoparams & Hbody & _).
    exists req. split; [unfold sends; rewrite Hrun; apply exchange_sends |].
    rewrite Hm. split; [reflexivity |]. split; [exact Hnobody |].
    intros H. split; [apply Hnoparams | apply Hbody]; exact H.
Qed.

(** X12: the client only talks to its base URL.  The URL of every request
    is the base URL followed by a path, and for every method other than
    the four transport helpers that path starts with
    [/api/collections/]. *)
Theorem requests_stay_under_base_url o st :
  exists req path,
    sends (call o) st [req] /\
    req_url req = base_url (self st) +:+ path /\
    (is_helper o = false -> exists rest, path = "/api/collections/" +:+ rest).
Proof.
  destruct (is_login o) eqn:Hlogin.
  - destruct o; try discriminate Hlogin. simpl.
    eexists _, _. split; [apply login_sends |].
    split; [reflexivity |]. intros _. eexists. reflexivity.
  - destruct (call_request o st Hlogin)
      as (req & k & Hrun & _ & (path & Hurl & Hpath) & _).
    exists req, path. split; [unfold sends; rewrite Hrun; apply exchange_sends |].
    split; assumption.
Qed.

(** ** Conventions of the list accessors *)

Ltac list_query :=
  unfold sends_list_query, sends_filter, sends, get_systems, get_system_stats,
    get_container_stats, get_alerts, get_alert_history, get_containers, list_records;
  eexists _, _; split; [to_exchange; apply exchange_sends |].

(** X13: the collection, page, page size, sort and expansion each list
    accessor asks for.  All six ask for page 1; [get_systems],
    [get_alerts] and [get_containers] ask for 200 records and no sort; the
    two stats accessors and [get_alert_history] ask for the caller's page
    size, newest first ([-created]); only [get_alerts] expands a relation,
    [system]. *)
Theorem list_accessor_conventions st :
  (forall filter_expr,
     sends_list_query (get_systems filter_expr) st "systems" 1 200 None None) /\
  (forall system_id record_type per_page,
     sends_list_query (get_system_stats system_id record_type per_page) st
       "system_stats" 1 per_page (Some "-created") None) /\
  (forall system_id per_page,
     sends_list_query (get_container_stats system_id per_page) st
       "container_stats" 1 per_page (Some "-created") None) /\
  (forall system_id,
     sends_list_query (get_alerts system_id) st "alerts" 1 200 None (Some "system")) /\
  (forall per_page,
     sends_list_query (get_alert_history per_page) st
       "alerts_history" 1 per_page (Some "-created") None) /\
  (forall system_id,
     sends_list_query (get_containers system_id) st "containers" 1 200 None None).
Proof.
  repeat split; intros; list_query;
    (split; [reflexivity |]); (split; [reflexivity |]); (split; [reflexivity |]);
    rewrite list_params_page, list_params_perPage, list_params_sort, list_params_expand;
    repeat split; reflexivity.
Qed.

(** X14: the filters of the accessors that do not drop an empty id.
    [get_systems] passes the caller's expression through unchanged and
    sends no filter when it is empty; [get_container_stats] always sends
    [system="<id>"], for an empty id too (then the filter is [system=]
    followed by two double quotes); [get_alert_history] never filters. *)
Theorem filters_of_the_other_accessors st :
  (forall filter_expr,
     sends_filter (get_systems filter_expr) st
       (if decide (filter_expr = EmptyString) then None else Some (PyStr filter_expr))) /\
  (forall system_id per_page,
     sends_filter (get_container_stats system_id per_page) st
       (Some (PyStr ("system=" +:+ dquote +:+ system_id +:+ dquote)))) /\
  (forall per_page,
     exists f,
       sends_filter (get_container_stats EmptyString per_page) st (Some (PyStr f)) /\
       codes f = [115; 121; 115; 116; 101; 109; 61; 34; 34]%nat) /\
  (forall per_page, sends_filter (get_alert_history per_page) st None).
Proof.
  split.
  { intros filter_expr. list_query. split; [reflexivity |]. split; [reflexivity |].
    rewrite list_params_filter. destruct filter_expr; reflexivity. }
  split; [intros; apply get_container_stats_filter |].
  split.
  { intros per_page. eexists. split; [apply get_container_stats_filter | reflexivity]. }
  intros per_page. list_query. split; [reflexivity |]. split; [reflexivity |].
  rewrite list_params_filter. reflexivity.
Qed.

(** ** Commands *)

Lemma bind_exchange_pure {A B} req (k : Response -> exn + A) (f : A -> M B)
    (g : A -> exn + B) st :
  (forall a st', f a st' = (g a, st')) ->
  bind (exchange req k) f st =
  exchange req (fun r => match k r with inl e => inl e | inr a => g a end) st.
Proof.
  intros Hf. unfold bind, exchange.
  destruct (send _ _) as [[msg | r] n]; simpl; [reflexivity |].
  destruct (is_success r); [| reflexivity].
  destruct (k r); [reflexivity | apply Hf].
Qed.

Lemma system_update_body_run system_id name host port st :
  system_update_data name host port <> [] ->
  system_update_body system_id name host port st =
  exchange {| req_method := PATCH;
              req_url := base_url (self st) +:+ "/api/collections/systems/records/"
                           +:+ system_id;
              req_headers := headers_of (self st);
              req_params := None;
              req_json := Some (PyDict (system_update_data name host port)) |}
    (fun r => match decoded r with inl e => inl e | inr sys => updated_line sys end) st.
Proof.
  intros Hdata. unfold system_update_body.
  destruct (system_update_data name host port) as [| kv data]; [contradiction |].
  change (truthy (PyDict (kv :: data))) with true. cbv iota.
  unfold update_system, update_record.
  erewrite bind_run by (rewrite _patch_run; reflexivity).
  apply bind_exchange_pure.
  intros [| | | | | d] st'; try reflexivity.
  unfold py_get, bind, ret, updated_line. destruct (dict_lookup "name" d); reflexivity.
Qed.

Lemma system_update_data_nonempty name host port :
  (exists s, name = Some s /\ s <> EmptyString) \/
  (exists s, host = Some s /\ s <> EmptyString) \/
  (exists p, port = Some p /\ p <> 0) ->
  system_update_data name host port <> [].
Proof.
  intros H. unfold system_update_data.
  destruct name as [[| a s] |], host as [[| b h] |], port as [[| p | p] |];
    simpl; try discriminate;
    destruct H as [(s' & Hs & Hne) | [(s' & Hs & Hne) | (p' & Hp & Hne)]];
    congruence.
Qed.

(** X15: [system-update] without any usable option does not contact the
    server.  An option that is missing or falsy (an empty name or host,
    port 0) is not an update: the command prints that no updates were
    provided, sends no request and leaves the state as it is. *)
Theorem system_update_without_options_sends_nothing system_id name host port st :
  name = None \/ name = Some EmptyString ->
  host = None \/ host = Some EmptyString ->
  port = None \/ port = Some 0 ->
  system_update_body system_id name host port st =
  (inr ["[yellow]No updates provided[/yellow]"], st).
Proof.
  intros [-> | ->] [-> | ->] [-> | ->]; reflexivity.
Qed.

(** X16: [system-update] with at least one truthy option sends one PATCH
    to [/api/collections/systems/records/{system_id}] whose JSON body is a
    mapping holding exactly the truthy options: [name] and [host] when
    given and non-empty, [port] when given and not 0, and no other key. *)
Theorem system_update_sends_the_given_fields system_id name host port st :
  (exists s, name = Some s /\ s <> EmptyString) \/
  (exists s, host = Some s /\ s <> EmptyString) \/
  (exists p, port = Some p /\ p <> 0) ->
  exists req data,
    sends (system_update_body system_id name host port) st [req] /\
    req_method req = PATCH /\
    req_url req = base_url (self st) +:+ "/api/collections/systems/records/" +:+ system_id /\
    req_json req = Some (PyDict data) /\
    dict_lookup "name" data =
      (match name with
       | Some s => if decide (s = EmptyString) then None else Some (PyStr s)
       | None => None
       end) /\
    dict_lookup "host" data =
      (match host with
       | Some s => if decide (s = EmptyString) then None else Some (PyStr s)
       | None => None
       end) /\
    dict_lookup "port" data =
      (match port with
       | Some p => if decide (p = 0) then None else Some (PyInt p)
       | None => None
       end) /\
    (forall key, key <> "name" -> key <> "host" -> key <> "port" ->
       dict_lookup key data = None).
Proof.
  intros Hsome. apply system_update_data_nonempty in Hsome.
  eexists _, (system_update_data name host port). split.
  { unfold sends. rewrite (system_update_body_run _ _ _ _ _ Hsome). apply exchange_sends. }
  split; [reflexivity |]. split; [reflexivity |]. split; [reflexivity |].
  clear Hsome. unfold system_update_data.
  destruct name as [[| a s] |], host as [[| b h] |], port as [[| p | p] |];
    simpl; repeat split; try reflexivity;
    intros key Hn Hh Hp;
    repeat (match goal with
            | |- context [String.eqb key ?k] =>
                destruct (String.eqb_spec key k); [congruence |]
            end); reflexivity.
Qed.

(** X17: the commands that change the server report success only after
    the server accepted.  [system-delete] sends one DELETE and prints
    [System deleted] exactly when the status is a success; on any other
    status it prints nothing and the HTTP status error leaves the command.
    [system-update] likewise prints nothing when its PATCH is refused. *)
Theorem commands_report_only_after_success system_id name host port st :
  (exists req,
     sends (system_delete_body system_id) st [req] /\
     req_method req = DELETE /\
     req_url req = base_url (self st) +:+ "/api/collections/systems/records/" +:+ system_id /\
     forall r n,
       send (net st) req = (inr r, n) ->
       (system_delete_body system_id st).1 =
         (if is_success r then inr ["[green]System deleted[/green]"]
          else inl (HTTPStatusError r))) /\
  (forall req r n,
     sends (system_update_body system_id name host port) st [req] ->
     send (net st) req = (inr r, n) ->
     is_success r = false ->
     (system_update_body system_id name host port st).1 = inl (HTTPStatusError r)).
Proof.
  split.
  - assert (Hrun : system_delete_body system_id st =
                   exchange {| req_method := DELETE;
                               req_url := base_url (self st)
                                 +:+ "/api/collections/systems/records/" +:+ system_id;
                               req_headers := headers_of (self st);
                               req_params := None; req_json := None |}
                     (fun _ => inr ["[green]System deleted[/green]"]) st).
    { unfold system_delete_body, delete_system, delete_record.
      erewrite bind_run by (rewrite _delete_run; reflexivity).
      rewrite (bind_exchange_pure _ _ _ (fun _ => inr ["[green]System deleted[/green]"]))
        by reflexivity.
      reflexivity. }
    eexists. split; [unfold sends; rewrite Hrun; apply exchange_sends |].
    split; [reflexivity |]. split; [reflexivity |].
    intros r n Hsend. rewrite Hrun, (exchange_outcome _ _ _ _ _ Hsend).
    destruct (is_success r); reflexivity.
  - intros req r n Hsends Hsend Hbad.
    destruct (system_update_data name host port) as [| kv data] eqn:Hdata.
    + exfalso. unfold sends, system_update_body in Hsends. rewrite Hdata in Hsends.
      simpl in Hsends. rewrite <- (app_nil_r (sent st)) in Hsends at 1.
      apply app_inv_head in Hsends. discriminate Hsends.
    + assert (Hne : system_update_data name host port <> []) by (rewrite Hdata; discriminate).
      unfold sends in Hsends. rewrite (system_update_body_run _ _ _ _ _ Hne) in *.
      rewrite exchange_sends in Hsends. apply app_inv_head in Hsends.
      injection Hsends as <-.
      rewrite (exchange_outcome _ _ _ _ _ Hsend), Hbad. reflexivity.
Qed.

Lemma get_client_cases env_url env_token cfg_url cfg_token :
  match get_client env_url env_token cfg_url cfg_token with
  | ClientExit _ code =>
      code = 1 /\
      (env_url = None \/ env_url = Some EmptyString) /\
      (cfg_url = None \/ cfg_url = Some EmptyString)
  | ClientReady c =>
      exists url,
        url <> EmptyString /\
        (env_url = Some url \/
         ((env_url = None \/ env_url = Some EmptyString) /\ cfg_url = Some url)) /\
        base_url c = rstrip_slash url
  end.
Proof.
  unfold get_client, str_or.
  destruct env_url as [[| a u] |], cfg_url as [[| b v] |];
    cbn [str_truthy];
    first
      [ split; [reflexivity | split; auto; fail]
      | exists (String a u);
        split; [discriminate | split; [left; reflexivity | reflexivity]]
      | exists (String b v);
        split; [discriminate | split; [right; auto | reflexivity]] ].
Qed.

(** X24: the [system-update] command from start to end.  Without a
    configured URL it exits with status 1 and never reaches the network.
    With one, it talks to that URL without its trailing slashes: when no
    option is truthy nothing is sent and the command says so; otherwise
    exactly one request is sent, a PATCH of the truthy options to
    [/api/collections/systems/records/{system_id}]. *)
Theorem system_update_end_to_end env_url env_token cfg_url cfg_token n
    system_id name host port :
  match system_update env_url env_token cfg_url cfg_token n system_id name host port with
  | Exited _ code =>
      code = 1 /\
      (env_url = None \/ env_url = Some EmptyString) /\
      (cfg_url = None \/ cfg_url = Some EmptyString)
  | Ran outcome final =>
      exists url,
        url <> EmptyString /\
        (env_url = Some url \/
         ((env_url = None \/ env_url = Some EmptyString) /\ cfg_url = Some url)) /\
        base_url (self final) = rstrip_slash url /\
        (system_update_data name host port = [] ->
           sent final = [] /\ outcome = inr ["[yellow]No updates provided[/yellow]"]) /\
        (system_update_data name host port <> [] ->
           exists req,
             sent final = [req] /\
             req_method req = PATCH /\
             req_url req =
               rstrip_slash url +:+ "/api/collections/systems/records/" +:+ system_id /\
             req_json req = Some (PyDict (system_update_data name host port)))
  end.
Proof.
  unfold system_update, with_client.
  pose proof (get_client_cases env_url env_token cfg_url cfg_token) as Hclient.
  destruct (get_client env_url env_token cfg_url cfg_token) as [c | msg code];
    [| exact Hclient].
  destruct Hclient as (url & Hne & Hsrc & Hbase).
  set (st := {| self := c; net := n; sent := [] |}).
  destruct (system_update_body system_id name host port st) as [outcome final] eqn:Hbody.
  exists url. split; [exact Hne |]. split; [exact Hsrc |].
  destruct (system_update_data name host port) as [| kv data] eqn:Hdata.
  - unfold system_update_body in Hbody. rewrite Hdata in Hbody.
    simpl in Hbody. injection Hbody as <- <-.
    split; [exact Hbase |]. split; [intros _; split; reflexivity | congruence].
  - assert (Hnonempty : system_update_data name host port <> [])
      by (rewrite Hdata; discriminate).
    pose proof (system_update_body_run system_id name host port st Hnonempty) as Hrun.
    rewrite Hbody in Hrun. apply (f_equal snd) in Hrun. simpl in Hrun.
    split; [rewrite Hrun, exchange_self; exact Hbase |].
    split; [discriminate |]. intros _.
    eexists. split; [rewrite Hrun; etransitivity; [apply exchange_sends | reflexivity] |].
    split; [reflexivity |]. split; [simpl; rewrite Hbase; reflexivity |].
    simpl. rewrite Hdata. reflexivity.
Qed.

End WithNetwork.

(** ** The model on concrete inputs *)

(** The end-to-end scenario of the spec: a client without token asks for
    the systems. *)
Example get_systems_scenario :
  let body := PyDict [("items", PyList [PyDict [("id", PyStr "s1"); ("name", PyStr "box1");
                                                ("status", PyStr "up")]]);
                      ("totalItems", PyInt 1)] in
  get_systems unit (const_net (ok_response body)) EmptyString
    (fresh_state "https://hub.example.com" PyNone) =
  (inr (PyList [PyDict [("id", PyStr "s1"); ("name", PyStr "box1"); ("status", PyStr "up")]]),
   {| self := {| base_url := "https://hub.example.com"; token := PyNone |};
      net := tt;
      sent := [ {| req_method := GET;
                   req_url := "https://hub.example.com/api/collections/systems/records";
                   req_headers := {[ "Content-Type" := PyStr "application/json" ]};
                   req_params := Some (<[ "perPage" := PyInt 200 ]> {[ "page" := PyInt 1 ]});
                   req_json := None |} ] |}).
Proof. reflexivity. Qed.

Example base_url_loses_trailing_slashes :
  base_url (BeszelClient_init "https://hub.example.com//" PyNone) = "https://hub.example.com".
Proof. reflexivity. Qed.

Example status_400_and_401_are_failures :
  is_success (error_response 400) = false /\ is_success (error_response 401) = false.
Proof. split; reflexivity. Qed.

(** A system id holding a double quote reaches the filter unescaped:
    [a"b] gives [system="a"b"]. *)
Example quote_in_id_is_not_escaped :
  codes (system_filter ("a" +:+ dquote +:+ "b")) =
  [115; 121; 115; 116; 101; 109; 61; 34; 97; 34; 98; 34]%nat.
Proof. reflexivity. Qed.

Lemma login_posts_credentials_and_stores_token_witness :
  let r := ok_response (PyDict [("record", PyDict []); ("token", PyStr "t0k3n")]) in
  let st := fresh_state "https://hub.example.com/" (PyStr "stale") in
  is_success r = true /\
  (login unit (const_net r) "ops@example.com" "secret" st).1 = inr (PyStr "t0k3n") /\
  token (self (login unit (const_net r) "ops@example.com" "secret" st).2) = PyStr "t0k3n".
Proof.
  intros r st. split; [reflexivity |].
  apply (proj2 (proj2 (login_posts_credentials_and_stores_token
                         unit (const_net r) "ops@example.com" "secret" st))
           r tt [("record", PyDict []); ("token", PyStr "t0k3n")] (PyStr "t0k3n"));
    reflexivity.
Defined.

Lemma login_failure_raises_and_keeps_token_witness :
  let r := error_response 401 in
  let st := fresh_state "https://hub.example.com" (PyStr "stale") in
  is_success r = false /\
  (login unit (const_net r) "ops@example.com" "wrong" st).1 = inl (HTTPStatusError r) /\
  token (self (login unit (const_net r) "ops@example.com" "wrong" st).2) = PyStr "stale" /\
  self (login unit (const_net r) "ops@example.com" "wrong" st).2 = self st.
Proof.
  intros r st. split; [reflexivity |].
  apply (login_failure_raises_and_keeps_token
           unit (const_net r) "ops@example.com" "wrong" st r tt); reflexivity.
Defined.

Lemma get_current_user_returns_record_witness :
  let user := PyDict [("id", PyStr "u1"); ("email", PyStr "ops@example.com")] in
  let r := ok_response (PyDict [("token", PyStr "t0k3n"); ("record", user)]) in
  let st := fresh_state "https://hub.example.com" (PyStr "t0k3n") in
  is_success r = true /\
  (get_current_user unit (const_net r) st).1 = inr user /\
  self (get_current_user unit (const_net r) st).2 = self st.
Proof.
  intros user r st. split; [reflexivity |].
  apply (proj2 (get_current_user_returns_record unit (const_net r) st)
           r tt [("token", PyStr "t0k3n"); ("record", user)]); reflexivity.
Defined.

Lemma requests_carry_json_and_raw_token_witness :
  let send := const_net (ok_response (PyDict [])) in
  let st := fresh_state "https://hub.example.com" (PyStr "t0k3n") in
  is_login (Op_get_systems EmptyString) = false /\
  exists req,
    sends unit (call unit send (Op_get_systems EmptyString)) st [req] /\
    req_headers req !! "Content-Type" = Some (PyStr "application/json") /\
    req_headers req !! "Authorization" = Some (PyStr "t0k3n").
Proof.
  intros send st. split; [reflexivity |].
  destruct (requests_carry_json_and_raw_token unit send (Op_get_systems EmptyString) st
              eq_refl) as (req & Hsends & Hct & Hauth & _).
  exists req. split; [exact Hsends |]. split; [exact Hct | exact Hauth].
Defined.

Lemma items_default_is_applied_by_accessors_witness :
  let r := ok_response (PyDict [("totalItems", PyInt 0)]) in
  let st := fresh_state "https://hub.example.com" PyNone in
  returns_items (Op_get_containers "sys1") = true /\
  exists req,
    sends unit (call unit (const_net r) (Op_get_containers "sys1")) st [req] /\
    (call unit (const_net r) (Op_get_containers "sys1") st).1 = inr (PyList []).
Proof.
  intros r st. split; [reflexivity |].
  destruct (proj1 (items_default_is_applied_by_accessors unit (const_net r))
              (Op_get_containers "sys1") st eq_refl) as (req & Hsends & Hres).
  exists req. split; [exact Hsends |].
  apply (Hres r tt [("totalItems", PyInt 0)]); reflexivity.
Defined.

Lemma status_decides_the_outcome_witness :
  let r := error_response 404 in
  let st := fresh_state "https://hub.example.com" (PyStr "t0k3n") in
  is_success r = false /\
  exists req,
    sends unit (call unit (const_net r) (Op_delete_alert "a1")) st [req] /\
    (call unit (const_net r) (Op_delete_alert "a1") st).1 = inl (HTTPStatusError r) /\
    self (call unit (const_net r) (Op_delete_alert "a1") st).2 = self st.
Proof.
  intros r st. split; [reflexivity |].
  destruct (status_decides_the_outcome unit (const_net r) (Op_delete_alert "a1") st)
    as (req & Hsends & Hres).
  exists req. split; [exact Hsends |].
  apply (proj1 (Hres r tt eq_refl)). reflexivity.
Defined.

Lemma filters_interpolate_ids_verbatim_witness :
  let send := const_net (ok_response (PyDict [])) in
  let st := fresh_state "https://hub.example.com" PyNone in
  let system_id := "a" +:+ dquote +:+ "b" in
  system_id <> EmptyString /\
  exists f,
    sends_filter unit (get_containers unit send system_id) st (Some (PyStr f)) /\
    codes f = [115; 121; 115; 116; 101; 109; 61; 34; 97; 34; 98; 34]%nat.
Proof.
  intros send st system_id. split; [discriminate |].
  destruct (filters_interpolate_ids_verbatim unit send system_id "1m" 30 st)
    as (f & g & Hf & _ & _ & Heq & _); [discriminate |].
  exists f. split; [exact Hf |]. rewrite Heq. reflexivity.
Defined.

(** C3, as stated, fails: on a body without [items], [list_records]
    returns that body, which has no [items] key. *)
Lemma list_records_does_not_default_items :
  let body := [("page", PyInt 1); ("totalItems", PyInt 0)] in
  let st := fresh_state "https://hub.example.com" PyNone in
  dict_lookup "items" body = None /\
  (list_records unit (const_net (ok_response (PyDict body))) "systems" 1 200
     EmptyString EmptyString EmptyString st).1 = inr (PyDict body).
Proof. split; reflexivity. Qed.

(** C8, as stated, fails: on a success response [get_systems] returns
    the [items] of the parsed body, not the parsed body. *)
Lemma get_systems_does_not_return_the_body :
  let items := PyList [PyDict [("id", PyStr "s1")]] in
  let body := PyDict [("items", items); ("totalItems", PyInt 1)] in
  let r := ok_response body in
  let st := fresh_state "https://hub.example.com" PyNone in
  is_success r = true /\
  resp_json r = Some body /\
  (call unit (const_net r) (Op_get_systems EmptyString) st).1 = inr items /\
  (call unit (const_net r) (Op_get_systems EmptyString) st).1 <> inr body.
Proof. repeat split; try reflexivity. discriminate. Qed.

Lemma login_without_token_in_response_witness :
  let r := ok_response (PyDict [("record", PyDict [])]) in
  let st := fresh_state "https://hub.example.com" (PyStr "stale") in
  is_success r = true /\
  (login unit (const_net r) "ops@example.com" "secret" st).1 = inl (KeyError "token") /\
  token (self (login unit (const_net r) "ops@example.com" "secret" st).2) = PyStr "stale".
Proof.
  intros r st. split; [reflexivity |].
  destruct (login_without_token_in_response unit (const_net r)
              "ops@example.com" "secret" st r tt eq_refl eq_refl)
    as (Hkey & _ & _ & Htok).
  split.
  - apply (Hkey [("record", PyDict [])]); reflexivity.
  - apply Htok. intros d tok Hd. injection Hd as <-. discriminate.
Defined.

Lemma only_login_changes_the_client_witness :
  let r := ok_response (PyDict [("token", PyStr "other")]) in
  let st := fresh_state "https://hub.example.com" (PyStr "t0k3n") in
  is_login (Op_auth_refresh) = false /\
  self (call unit (const_net r) Op_auth_refresh st).2 = self st.
Proof.
  intros r st. split; [reflexivity |].
  apply (proj2 (only_login_changes_the_client unit (const_net r) Op_auth_refresh st)).
  reflexivity.
Defined.


Lemma transport_failure_propagates_witness :
  let send := fun (_ : unit) (_ : Request) =>
                (inl "connection refused" : string + Response, tt) in
  let st := fresh_state "https://hub.example.com" (PyStr "t0k3n") in
  exists req,
    sends unit (call unit send (Op_get_alerts "sys1")) st [req] /\
    (call unit send (Op_get_alerts "sys1") st).1 = inl (RequestError "connection refused") /\
    self (call unit send (Op_get_alerts "sys1") st).2 = self st.
Proof.
  intros send st.
  destruct (transport_failure_propagates unit send (Op_get_alerts "sys1") st)
    as (req & Hsends & Hfail).
  exists req. split; [exact Hsends |].
  destruct (Hfail "connection refused" tt eq_refl) as (Hres & Hself & _).
  split; [exact Hres | exact Hself].
Defined.

Lemma undecodable_body_raises_except_for_delete_witness :
  let r := {| status_code := 204; resp_json := None |} in
  let st := fresh_state "https://hub.example.com" (PyStr "t0k3n") in
  is_success r = true /\
  (exists req,
     sends unit (call unit (const_net r) (Op_delete_system "s1")) st [req] /\
     (call unit (const_net r) (Op_delete_system "s1") st).1 = inr PyNone) /\
  (exists req,
     sends unit (call unit (const_net r) (Op_get_system "s1")) st [req] /\
     (call unit (const_net r) (Op_get_system "s1") st).1 = inl JSONDecodeError).
Proof.
  intros r st. split; [reflexivity |]. split.
  - destruct (undecodable_body_raises_except_for_delete unit (const_net r)
                (Op_delete_system "s1") st) as (req & Hsends & Hres).
    exists req. split; [exact Hsends |]. apply (Hres r tt); reflexivity.
  - destruct (undecodable_body_raises_except_for_delete unit (const_net r)
                (Op_get_system "s1") st) as (req & Hsends & Hres).
    exists req. split; [exact Hsends |]. apply (Hres r tt); reflexivity.
Defined.

Lemma non_mapping_body_raises_attribute_error_witness :
  let r := ok_response (PyList []) in
  let st := fresh_state "https://hub.example.com" (PyStr "t0k3n") in
  returns_items (Op_get_systems EmptyString) = true /\
  is_success r = true /\
  exists req,
    sends unit (call unit (const_net r) (Op_get_systems EmptyString)) st [req] /\
    (call unit (const_net r) (Op_get_systems EmptyString) st).1 = inl AttributeError.
Proof.
  intros r st. split; [reflexivity |]. split; [reflexivity |].
  destruct (non_mapping_body_raises_attribute_error unit (const_net r)
              (Op_get_systems EmptyString) st (or_introl eq_refl))
    as (req & Hsends & Hres).
  exists req. split; [exact Hsends |].
  apply (Hres r tt (PyList [])); reflexivity.
Defined.

Lemma get_record_request_witness :
  let send := const_net (ok_response (PyDict [])) in
  let st := fresh_state "https://hub.example.com" PyNone in
  exists p : gmap string pyvalue,
    sends unit (get_record unit send "systems" "s1" EmptyString) st
      [ {| req_method := GET;
           req_url := "https://hub.example.com/api/collections/systems/records/s1";
           req_headers := headers_of (self st);
           req_params := Some p;
           req_json := None |} ] /\
    p = ∅.
Proof.
  intros send st.
  destruct (get_record_request unit send "systems" "s1" EmptyString st)
    as (p & Hsends & _ & _ & Hempty).
  exists p. split; [exact Hsends | apply Hempty; reflexivity].
Defined.

Lemma operations_use_their_http_method_witness :
  let send := const_net (ok_response (PyDict [])) in
  let st := fresh_state "https://hub.example.com" PyNone in
  exists req,
    sends unit (call unit send (Op_create_alert (PyDict [("name", PyStr "CPU")]))) st [req] /\
    req_method req = POST /\
    req_params req = None /\
    exists body, req_json req = Some body.
Proof.
  intros send st.
  destruct (operations_use_their_http_method unit send
              (Op_create_alert (PyDict [("name", PyStr "CPU")])) st)
    as (req & Hsends & Hm & _ & Hpost).
  exists req. split; [exact Hsends |]. split; [exact Hm |].
  apply Hpost. left. exact Hm.
Defined.

Lemma requests_stay_under_base_url_witness :
  let send := const_net (ok_response (PyDict [])) in
  let st := fresh_state "https://hub.example.com/" PyNone in
  exists req rest,
    sends unit (call unit send (Op_get_alert_history 50)) st [req] /\
    req_url req = "https://hub.example.com" +:+ "/api/collections/" +:+ rest.
Proof.
  intros send st.
  destruct (requests_stay_under_base_url unit send (Op_get_alert_history 50) st)
    as (req & path & Hsends & Hurl & Hpath).
  destruct (Hpath eq_refl) as (rest & ->).
  exists req, rest. split; [exact Hsends | exact Hurl].
Defined.

Lemma system_update_without_options_sends_nothing_witness :
  let send := const_net (ok_response (PyDict [])) in
  let st := fresh_state "https://hub.example.com" (PyStr "t0k3n") in
  system_update_body unit send (fun _ => "box1") "s1" (Some EmptyString) None (Some 0) st =
  (inr ["[yellow]No updates provided[/yellow]"], st).
Proof.
  intros send st.
  apply (system_update_without_options_sends_nothing unit send (fun _ => "box1")
           "s1" (Some EmptyString) None (Some 0) st);
    [right | left | right]; reflexivity.
Defined.

Lemma system_update_sends_the_given_fields_witness :
  let send := const_net (ok_response (PyDict [("name", PyStr "box1")])) in
  let st := fresh_state "https://hub.example.com" (PyStr "t0k3n") in
  exists req data,
    sends unit (system_update_body unit send (fun _ => "box1") "s1"
                  (Some "box1") (Some EmptyString) (Some 0)) st [req] /\
    req_method req = PATCH /\
    req_url req = "https://hub.example.com/api/collections/systems/records/s1" /\
    req_json req = Some (PyDict data) /\
    dict_lookup "name" data = Some (PyStr "box1") /\
    dict_lookup "host" data = None /\
    dict_lookup "port" data = None.
Proof.
  intros send st.
  destruct (system_update_sends_the_given_fields unit send (fun _ => "box1") "s1"
              (Some "box1") (Some EmptyString) (Some 0) st)
    as (req & data & Hsends & Hm & Hurl & Hjson & Hname & Hhost & Hport & _).
  { left. exists "box1". split; [reflexivity | discriminate]. }
  exists req, data.
  split; [exact Hsends |]. split; [exact Hm |]. split; [exact Hurl |].
  split; [exact Hjson |]. split; [exact Hname |]. split; [exact Hhost | exact Hport].
Defined.

Lemma commands_report_only_after_success_witness :
  let r := error_response 403 in
  let st := fresh_state "https://hub.example.com" (PyStr "t0k3n") in
  is_success r = false /\
  exists req,
    sends unit (system_delete_body unit (const_net r) "s1") st [req] /\
    (system_delete_body unit (const_net r) "s1" st).1 = inl (HTTPStatusError r).
Proof.
  intros r st. split; [reflexivity |].
  destruct (proj1 (commands_report_only_after_success unit (const_net r) (fun _ => "box1")
                     "s1" None None None st))
    as (req & Hsends & _ & _ & Hres).
  exists req. split; [exact Hsends |]. apply (Hres r tt). reflexivity.
Defined.

(** The [system-update] command with a stored URL and token, and with
    an empty [BESZEL_URL] and no stored URL. *)
Example system_update_scenario :
  let send := const_net (ok_response (PyDict [("name", PyStr "box2")])) in
  system_update unit send (fun _ => "box2") None None (Some "https://hub.example.com/")
    (Some "st0red") tt "s1" (Some "box2") None (Some 0) =
  @Ran unit (list string) (inr ["[green]Updated system:[/green] box2"])
    {| self := {| base_url := "https://hub.example.com"; token := PyStr "st0red" |};
       net := tt;
       sent := [ {| req_method := PATCH;
                    req_url := "https://hub.example.com/api/collections/systems/records/s1";
                    req_headers := <[ "Authorization" := PyStr "st0red" ]>
                                     {[ "Content-Type" := PyStr "application/json" ]};
                    req_params := None;
                    req_json := Some (PyDict [("name", PyStr "box2")]) |} ] |} /\
  system_update unit send (fun _ => "box2") (Some EmptyString) None None
    (Some "st0red") tt "s1" (Some "box2") None None =
  @Exited unit (list string)
    "[red]Error: No Beszel URL configured. Run 'beszel login' first.[/red]" 1.
Proof. intros send. split; reflexivity. Qed.

End Client.

(** ** Choosing the server and the token: [get_client] *)

(** X18: [get_client] gives up exactly when no URL is configured.  It
    exits with status 1 when [BESZEL_URL] is unset or empty and the stored
    URL is missing or empty; otherwise it builds a client for the
    environment's URL if that is non-empty and for the stored URL if not,
    trailing slashes removed.  An empty [BESZEL_URL] does not hide the
    stored URL. *)
Theorem get_client_exits_iff_no_url env_url env_token cfg_url cfg_token :
  match get_client env_url env_token cfg_url cfg_token with
  | ClientExit _ code =>
      code = 1 /\
      (env_url = None \/ env_url = Some EmptyString) /\
      (cfg_url = None \/ cfg_url = Some EmptyString)
  | ClientReady c =>
      exists url,
        url <> EmptyString /\
        (env_url = Some url \/
         ((env_url = None \/ env_url = Some EmptyString) /\ cfg_url = Some url)) /\
        base_url c = rstrip_slash url
  end.
Proof. apply Client.get_client_cases. Qed.

(** X19: which token the configured client sends.  Every request of a
    client built by [get_client] (other than [login]'s) carries as
    [Authorization] the environment's [BESZEL_TOKEN] if that is non-empty,
    else the stored token if that is non-empty, and no such header when
    neither is. *)
Theorem configured_token_reaches_the_requests (Net : Type)
    (send : Net -> Request -> (string + Response) * Net)
    env_url env_token cfg_url cfg_token c o n :
  get_client env_url env_token cfg_url cfg_token = ClientReady c ->
  Client.is_login o = false ->
  exists req,
    Client.sends Net (Client.call Net send o) {| self := c; net := n; sent := [] |} [req] /\
    req_headers req !! "Authorization" =
      (let stored :=
         match cfg_token with
         | Some t => if decide (t = EmptyString) then None else Some (PyStr t)
         | None => None
         end in
       match env_token with
       | Some t => if decide (t = EmptyString) then stored else Some (PyStr t)
       | None => stored
       end).
Proof.
  intros Hclient Hlogin.
  assert (Htok : token c = opt_str_value (str_or env_token cfg_token)).
  { unfold get_client in Hclient.
    destruct (str_or env_url cfg_url) as [url |]; [| discriminate].
    destruct (str_truthy url); [| discriminate].
    injection Hclient as <-. reflexivity. }
  set (st := {| self := c; net := n; sent := [] |}).
  destruct (Client.call_exchange Net send o st st Hlogin eq_refl eq_refl)
    as (req & k & Hrun & _ & Hh & _).
  exists req. split.
  { unfold Client.sends. rewrite Hrun. apply Client.exchange_sends. }
  rewrite Hh, Client.lookup_headers_of_authorization. simpl. rewrite Htok.
  unfold str_or.
  destruct env_token as [[| a t] |], cfg_token as [[| b u] |]; reflexivity.
Qed.

Lemma configured_token_reaches_the_requests_witness :
  let send := const_net (ok_response (PyDict [])) in
  get_client (Some EmptyString) (Some EmptyString) (Some "https://hub.example.com/")
    (Some "st0red") = ClientReady (BeszelClient_init "https://hub.example.com/" (PyStr "st0red")) /\
  exists req,
    Client.sends unit (Client.call unit send (Client.Op_get_systems EmptyString))
      (fresh_state "https://hub.example.com/" (PyStr "st0red")) [req] /\
    req_headers req !! "Authorization" = Some (PyStr "st0red").
Proof.
  intros send. split; [reflexivity |].
  apply (configured_token_reaches_the_requests unit send
           (Some EmptyString) (Some EmptyString) (Some "https://hub.example.com/")
           (Some "st0red") _ (Client.Op_get_systems EmptyString) tt);
    reflexivity.
Defined.

(** ** [_format_bytes] *)

Lemma string_append_assoc (s t u : string) : (s +:+ t) +:+ u = s +:+ (t +:+ u).
Proof.
  induction s as [| a s IH]; [reflexivity |].
  rewrite !Client.append_cons, IH. reflexivity.
Qed.

Lemma format_1f_negative n den :
  0 < n -> format_1f (- n) den = "-" +:+ format_1f n den.
Proof.
  intros Hn. unfold format_1f. rewrite Z.abs_opp.
  destruct (Z.ltb_spec (- n) 0); [| lia].
  destruct (Z.ltb_spec n 0); [lia |]. reflexivity.
Qed.

Lemma format_bytes_loop_negative n den units :
  0 < n -> format_bytes_loop (- n) den units = "-" +:+ format_bytes_loop n den units.
Proof.
  intros Hn. revert den. induction units as [| unit rest IH]; intros den; simpl.
  - rewrite (format_1f_negative n den Hn). reflexivity.
  - rewrite Z.abs_opp. destruct (Z.abs n <? 1024 * den); [| apply IH].
    rewrite (format_1f_negative n den Hn). reflexivity.
Qed.

(** The unit the loop stops at: the one whose range holds the magnitude. *)
Lemma format_bytes_unit n k unit :
  byte_units !! k = Some unit ->
  1024 ^ Z.of_nat k <= Z.abs n < 1024 ^ Z.of_nat (S k) ->
  _format_bytes n = format_1f n (1024 ^ Z.of_nat k) +:+ " " +:+ unit.
Proof.
  intros Hunit Hrange. unfold _format_bytes, byte_units in *.
  assert (Hpos : 0 < 1024 ^ Z.of_nat k) by (apply Z.pow_pos_nonneg; lia).
  destruct (Z.eqb_spec n 0) as [-> | Hn]; [simpl in Hrange; lia |].
  do 5 (destruct k as [| k];
        [ injection Hunit as <-;
          repeat match goal with
                 | H : context [1024 ^ Z.of_nat ?j] |- _ =>
                     let v := eval vm_compute in (1024 ^ Z.of_nat j) in
                     change (1024 ^ Z.of_nat j) with v in H
                 end;
          match goal with
          | |- context [1024 ^ Z.of_nat ?j] =>
              let v := eval vm_compute in (1024 ^ Z.of_nat j) in
              change (1024 ^ Z.of_nat j) with v
          end;
          simpl format_bytes_loop;
          repeat match goal with
                 | |- context [Z.abs n <? ?b] =>
                     let v := eval vm_compute in b in
                     change b with v;
                     destruct (Z.ltb_spec (Z.abs n) v); try lia
                 end;
          reflexivity
        | ]).
  discriminate Hunit.
Qed.

Lemma format_1f_whole n : 0 <= n -> format_1f n 1 = pretty (Z.to_N n) +:+ ".0".
Proof.
  intros Hn. unfold format_1f.
  rewrite (Z.abs_eq n Hn), Z.div_1_r, Z.mod_1_r.
  change (1 <? 2 * 0) with false. change ((1 =? 2 * 0) && Z.odd (10 * n)) with false.
  cbv iota.
  replace (10 * n / 10) with n by (rewrite Z.mul_comm, Z.div_mul; lia).
  replace ((10 * n) mod 10) with 0 by (rewrite Z.mul_comm, Z.mod_mul; lia).
  destruct (Z.ltb_spec n 0); [lia |]. reflexivity.
Qed.

Lemma format_1f_rounds_up n den :
  0 < den -> 0 <= n -> 20479 * den <= 20 * n -> n < 1024 * den ->
  format_1f n den = "1024.0".
Proof.
  intros Hden Hn Hlow Hhigh. unfold format_1f. rewrite (Z.abs_eq n Hn).
  assert (Hq : 10 * n / den = 10239).
  { symmetry. apply (Z.div_unique _ _ _ (10 * n - 10239 * den)); lia. }
  assert (Hr : (10 * n) mod den = 10 * n - 10239 * den).
  { symmetry. apply (Z.mod_unique _ _ 10239); lia. }
  rewrite Hq, Hr.
  destruct (Z.ltb_spec n 0); [lia |].
  destruct (Z.ltb_spec den (2 * (10 * n - 10239 * den))); [reflexivity |].
  destruct (Z.eqb_spec den (2 * (10 * n - 10239 * den))); [reflexivity | lia].
Qed.

(** X20: the unit [_format_bytes] prints is fixed by the magnitude alone,
    with thresholds at the powers of 1024: an integer whose magnitude lies
    in [1024^k, 1024^(k+1)) is printed as itself divided by [1024^k],
    rounded to one decimal, followed by the [k]-th of B, KB, MB, GB, TB;
    from [1024^5] on the unit is PB. *)
Theorem format_bytes_picks_unit_by_magnitude n :
  Z.abs n < 2 ^ 53 ->
  (forall k unit,
     byte_units !! k = Some unit ->
     1024 ^ Z.of_nat k <= Z.abs n < 1024 ^ Z.of_nat (S k) ->
     _format_bytes n = format_1f n (1024 ^ Z.of_nat k) +:+ " " +:+ unit) /\
  (1024 ^ 5 <= Z.abs n -> _format_bytes n = format_1f n (1024 ^ 5) +:+ " PB").
Proof.
  intros _. split; [intros k unit; apply format_bytes_unit |].
  intros Hbig. unfold _format_bytes, byte_units.
  change (1024 ^ 5) with 1125899906842624 in *.
  destruct (Z.eqb_spec n 0) as [-> | Hn]; [simpl in Hbig; lia |].
  simpl format_bytes_loop.
  repeat match goal with
         | |- context [Z.abs n <? ?b] =>
             let v := eval vm_compute in b in
             change b with v;
             destruct (Z.ltb_spec (Z.abs n) v); try lia
         end.
  reflexivity.
Qed.

(** X21: a whole number of bytes below 1024 is printed as it is: for
    [0 < n < 1024] the output is the decimal digits of [n] followed by
    [.0 B]. *)
Theorem format_bytes_below_1024 n :
  0 < n < 1024 ->
  _format_bytes n = pretty (Z.to_N n) +:+ ".0 B".
Proof.
  intros Hn.
  rewrite (format_bytes_unit n 0 "B" eq_refl) by (change (1024 ^ Z.of_nat 0) with 1;
    change (1024 ^ Z.of_nat 1) with 1024; lia).
  change (1024 ^ Z.of_nat 0) with 1.
  rewrite format_1f_whole by lia. rewrite string_append_assoc. reflexivity.
Qed.

(** X22: just below a power of 1024 the output shows [1024.0] of the
    smaller unit instead of [1.0] of the next one: for a positive [n] in
    the range of the [k]-th unit with [n / 1024^k >= 1023.95], the output
    is [1024.0] followed by that unit (1048575 bytes print as
    [1024.0 KB]). *)
Theorem format_bytes_can_print_1024 n k unit :
  byte_units !! k = Some unit ->
  1024 ^ Z.of_nat k <= n < 1024 ^ Z.of_nat (S k) ->
  20479 * 1024 ^ Z.of_nat k <= 20 * n ->
  _format_bytes n = "1024.0 " +:+ unit.
Proof.
  intros Hunit Hrange Hclose.
  assert (Hpos : 0 < 1024 ^ Z.of_nat k) by (apply Z.pow_pos_nonneg; lia).
  assert (Hnext : 1024 ^ Z.of_nat (S k) = 1024 * 1024 ^ Z.of_nat k).
  { rewrite Nat2Z.inj_succ, Z.pow_succ_r by lia. reflexivity. }
  rewrite (format_bytes_unit n k unit Hunit) by (rewrite Z.abs_eq; lia).
  rewrite format_1f_rounds_up by lia. reflexivity.
Qed.

(** X23: a negative amount is printed as the positive one with a minus
    sign in front: the unit is chosen by the magnitude, not by the sign. *)
Theorem format_bytes_negative n :
  0 < n < 2 ^ 53 ->
  _format_bytes (- n) = "-" +:+ _format_bytes n.
Proof.
  intros [Hn _]. unfold _format_bytes.
  destruct (Z.eqb_spec (- n) 0); [lia |].
  destruct (Z.eqb_spec n 0); [lia |].
  apply format_bytes_loop_negative. exact Hn.
Qed.

Lemma format_bytes_picks_unit_by_magnitude_witness :
  Z.abs 1536 < 2 ^ 53 /\ _format_bytes 1536 = "1.5 KB" /\
  _format_bytes 1280 = "1.2 KB" /\ _format_bytes (2 ^ 52) = "4.0 PB".
Proof.
  split; [reflexivity |]. split; [| split].
  - rewrite (proj1 (format_bytes_picks_unit_by_magnitude 1536 eq_refl) 1%nat "KB" eq_refl);
      [reflexivity | split; [discriminate | reflexivity]].
  - rewrite (proj1 (format_bytes_picks_unit_by_magnitude 1280 eq_refl) 1%nat "KB" eq_refl);
      [reflexivity | split; [discriminate | reflexivity]].
  - rewrite (proj2 (format_bytes_picks_unit_by_magnitude (2 ^ 52) eq_refl));
      [reflexivity | discriminate].
Defined.

Lemma format_bytes_below_1024_witness :
  0 < 1023 < 1024 /\ _format_bytes 1023 = "1023.0 B".
Proof.
  split; [split; reflexivity |].
  rewrite (format_bytes_below_1024 1023); [reflexivity | split; reflexivity].
Defined.

Lemma format_bytes_can_print_1024_witness :
  1024 <= 1048575 < 1048576 /\ _format_bytes 1048575 = "1024.0 KB".
Proof.
  split; [split; [discriminate | reflexivity] |].
  apply (format_bytes_can_print_1024 1048575 1 "KB");
    [reflexivity | split; [discriminate | reflexivity] | discriminate].
Defined.

Lemma format_bytes_negative_witness :
  0 < 1536 < 2 ^ 53 /\ _format_bytes (- 1536) = "-1.5 KB".
Proof.
  split; [split; reflexivity |].
  exact (format_bytes_negative 1536 (conj eq_refl eq_refl)).
Defined.
